(** * Cordinator.py: bounded conversation memory and the classify-then-reply pipeline

    A shallow embedding of [src/Cordinator.py]: the [Memory] dataclass, the two
    agents wrapping one backend call each, and [LLMCoordinator.ask].

    The Python program mutates one [Memory] object, calls a remote backend,
    reads the clock and prints to stdout.  These effects are threaded through a
    state-and-exception monad [M]; the backend, the clock, [json.loads] and
    Python's [str()] on exceptions and non-string values are the externals of
    the program and are the Variables of the section below. *)

From Stdlib Require Import ZArith Lia Ascii String.
From stdpp Require Import base strings list gmap.

Set Warnings "-register-all".

Local Open Scope string_scope.
Local Open Scope list_scope.
Local Open Scope Z_scope.

(** ** Characters the source text contains *)

Definition nl : string := String "010"%char EmptyString.
Definition dquote : string := String "034"%char EmptyString.

(** ** Python values, as far as the program sees them

    [json.loads] yields None, bool, int, float, str, list or dict with string
    keys.  A float is kept as its literal. *)

Inductive pyvalue : Type :=
| PyNone
| PyBool (b : bool)
| PyInt (z : Z)
| PyFloat (literal : string)
| PyStr (s : string)
| PyList (items : list pyvalue)
| PyDict (entries : list (string * pyvalue)).

(** Exceptions of class [Exception]: the two the subscript [result[key]] can
    raise, and any other one (raised by the backend client or by
    [json.loads]), identified by its class name and message. *)

Inductive exn : Type :=
| KeyError (key : string)
| TypeError (operand : pyvalue)
| OtherError (class message : string).

Inductive outcome (A : Type) : Type :=
| Return (a : A)
| Raise (e : exn).
Arguments Return {A} a.
Arguments Raise {A} e.

(** [d.get(key)] on the pairs of a dict. *)
Fixpoint dict_find (key : string) (entries : list (string * pyvalue)) : option pyvalue :=
  match entries with
  | [] => None
  | (k, v) :: rest => if String.eqb k key then Some v else dict_find key rest
  end.

(** [value[key]] for a string [key]: a dict is looked up and raises KeyError on
    a missing key; every other JSON value raises TypeError. *)
Definition py_getitem (value : pyvalue) (key : string) : outcome pyvalue :=
  match value with
  | PyDict entries =>
      match dict_find key entries with
      | Some v => Return v
      | None => Raise (KeyError key)
      end
  | other => Raise (TypeError other)
  end.

(** [l[i:]]: a negative [i] counts from the end, and both ends are clipped. *)
Definition py_slice_from {A : Type} (i : Z) (l : list A) : list A :=
  let n := Z.of_nat (length l) in
  let start := if i <? 0 then Z.max (n + i) 0 else Z.min i n in
  drop (Z.to_nat start) l.

(** ** Data model *)

(** The dict [{"role": .., "content": .., "time": ..}] built by [Memory.add]. *)
Record Turn : Type := mkTurn {
  role : string;
  content : string;
  time : string
}.

Record Memory : Type := mkMemory {
  messages : list Turn;
  max_history : Z
}.

(** [Memory()]: the dataclass defaults. *)
Definition Memory_new : Memory := {| messages := []; max_history := 20 |}.

(** [types.GenerateContentConfig(response_mime_type=.., response_schema=..)] *)
Record GenerateContentConfig : Type := mkConfig {
  response_mime_type : string;
  response_schema : pyvalue
}.

(** The keyword arguments of [client.models.generate_content]. *)
Record GenerateRequest : Type := mkRequest {
  model : string;
  contents : string;
  config : option GenerateContentConfig
}.

(** ** List part of [Memory.add] and [Memory.get_context] *)

(** Lines 24-25: the [if len(..) > max_history] and the slice. *)
Definition truncate (max_history : Z) (messages : list Turn) : list Turn :=
  if Z.of_nat (length messages) >? max_history
  then py_slice_from (- max_history) messages
  else messages.

(** Lines 28-31: the loop over [self.messages[-5:]] with [out += ...]. *)
Definition render_line (m : Turn) : string :=
  role m +:+ ": " +:+ content m +:+ nl.

Definition render (messages : list Turn) : string :=
  fold_left (fun out m => out +:+ render_line m) (py_slice_from (-5) messages) EmptyString.

Module Cordinator.

Section Program.

(** ** Externals *)

(** The state of everything outside the process: backend and clock. *)
Context {World : Type}.

(** The backend call [client.models.generate_content(..)]: it answers with the
    text of the response or raises an exception of class [Exception]; it may
    depend on, and change, the world. *)
Variable generate_content : GenerateRequest -> World -> outcome string * World.

(** [datetime.now().isoformat()] *)
Variable datetime_now_isoformat : World -> string * World.

(** [json.loads] *)
Variable json_loads : string -> outcome pyvalue.

(** [str(e)] of an exception and [str(v)] of a value that is not a str, as
    the f-strings apply them. *)
Variable exn_str : exn -> string.
Variable py_repr : pyvalue -> string.

Definition py_str (v : pyvalue) : string :=
  match v with
  | PyStr s => s
  | other => py_repr other
  end.

(** ** Program state and the monad *)

Record State : Type := mkState {
  st_world : World;
  st_requests : list GenerateRequest;   (* backend calls made, oldest first *)
  st_stdout : list string;              (* lines printed, oldest first *)
  st_memory : Memory                    (* the coordinator's [self.memory] *)
}.

Definition M (A : Type) : Type := State -> outcome A * State.

#[local] Instance M_ret : MRet M := fun A a st => (Return a, st).
#[local] Instance M_bind : MBind M := fun A B k m st =>
  match m st with
  | (Return a, st') => k a st'
  | (Raise e, st') => (Raise e, st')
  end.

(** [try: body except Exception as e: handler(e)] *)
Definition try_except {A : Type} (body : M A) (handler : exn -> M A) : M A :=
  fun st =>
    match body st with
    | (Return a, st') => (Return a, st')
    | (Raise e, st') => handler e st'
    end.

Definition lift {A : Type} (r : outcome A) : M A := fun st => (r, st).

Definition get_memory : M Memory := fun st => (Return (st_memory st), st).

Definition set_memory (m : Memory) : M unit := fun st =>
  (Return tt, {| st_world := st_world st; st_requests := st_requests st;
                 st_stdout := st_stdout st; st_memory := m |}).

Definition now : M string := fun st =>
  let '(t, w) := datetime_now_isoformat (st_world st) in
  (Return t, {| st_world := w; st_requests := st_requests st;
                st_stdout := st_stdout st; st_memory := st_memory st |}).

Definition print (line : string) : M unit := fun st =>
  (Return tt, {| st_world := st_world st; st_requests := st_requests st;
                 st_stdout := st_stdout st ++ [line]; st_memory := st_memory st |}).

Definition client_models_generate_content (request : GenerateRequest) : M string :=
  fun st =>
    let '(r, w) := generate_content request (st_world st) in
    (r, {| st_world := w; st_requests := st_requests st ++ [request];
           st_stdout := st_stdout st; st_memory := st_memory st |}).

(** ** class Memory *)

Definition add (role content : string) : M unit :=
  self ← get_memory;
  time ← now;
  let appended := messages self ++ [ {| role := role; content := content; time := time |} ] in
  set_memory {| messages := truncate (max_history self) appended;
                max_history := max_history self |}.

Definition get_context : M string :=
  self ← get_memory;
  mret (render (messages self)).

(** ** class LLMIntentAgent *)

Definition indent : string := "        ".

(** The f-string of lines 39-45. *)
Definition classify_prompt (message : string) : string :=
  nl +:+ indent +:+ "Analyze the user message below and classify its intent into one of the following categories:"
  +:+ nl +:+ indent +:+ "'refund', 'cancellation', 'billing', 'general_help', 'general'."
  +:+ nl +:+ indent +:+ "Also, assign an urgency level: 'low', 'medium', 'high'."
  +:+ nl +:+ indent +:+ "Format your response as a single JSON object with keys 'intent' and 'urgency'."
  +:+ nl +:+ indent +:+ "Message: " +:+ dquote +:+ message +:+ dquote
  +:+ nl +:+ indent.

Definition classify_schema : pyvalue :=
  PyDict [ ("type", PyStr "object");
           ("properties", PyDict [ ("intent", PyDict [ ("type", PyStr "string") ]);
                                   ("urgency", PyDict [ ("type", PyStr "string") ]) ]);
           ("required", PyList [ PyStr "intent"; PyStr "urgency" ]) ].

Definition classify_request (message : string) : GenerateRequest :=
  {| model := "gemini-2.5-flash";
     contents := classify_prompt message;
     config := Some {| response_mime_type := "application/json";
                       response_schema := classify_schema |} |}.

Definition classify (message : string) : M (pyvalue * pyvalue) :=
  try_except
    (response_text ← client_models_generate_content (classify_request message);
     result ← lift (json_loads response_text);
     intent ← lift (py_getitem result "intent");
     urgency ← lift (py_getitem result "urgency");
     mret (intent, urgency))
    (fun e =>
       print ("API Error during intent classification: " +:+ exn_str e);;
       mret (PyStr "error", PyStr "low")).

(** The classification call fails: the backend raises, or its text is not
    JSON, or the parsed value has no [intent] or no [urgency] to subscript. *)
Inductive classification_fails (message : string) (w : World) : Prop :=
| backend_raises (e : exn) (w' : World) :
    generate_content (classify_request message) w = (Raise e, w') ->
    classification_fails message w
| malformed_json (text : string) (w' : World) (e : exn) :
    generate_content (classify_request message) w = (Return text, w') ->
    json_loads text = Raise e ->
    classification_fails message w
| key_missing (text : string) (w' : World) (result : pyvalue) (key : string) (e : exn) :
    generate_content (classify_request message) w = (Return text, w') ->
    json_loads text = Return result ->
    key = "intent" \/ key = "urgency" ->
    py_getitem result key = Raise e ->
    classification_fails message w.

(** ** class LLMReplyAgent *)

(** The f-string of lines 76-85; [message] does not occur in it. *)
Definition reply_prompt (intent urgency : pyvalue) (context : string) : string :=
  nl +:+ indent +:+ "You are a helpful and polite customer support agent."
  +:+ nl +:+ indent +:+ "The user's current intent is classified as '" +:+ py_str intent
                    +:+ "' with '" +:+ py_str urgency +:+ "' urgency."
  +:+ nl +:+ indent +:+ "Here is the recent conversation history:"
  +:+ nl +:+ indent +:+ "---"
  +:+ nl +:+ indent +:+ context
  +:+ nl +:+ indent +:+ "---"
  +:+ nl +:+ indent +:+ "Based only on the above context and the most recent user message, write a concise, professional reply."
  +:+ nl +:+ indent +:+ "If you need more information (like an order ID or email), politely ask for it."
  +:+ nl +:+ indent.

Definition reply_request (intent urgency : pyvalue) (context : string) : GenerateRequest :=
  {| model := "gemini-2.5-flash";
     contents := reply_prompt intent urgency context;
     config := None |}.

Definition fallback_reply : string :=
  "Sorry, I am having trouble connecting to my services right now.".

Definition create_reply (message : string) (intent urgency : pyvalue) (context : string)
  : M string :=
  try_except
    (client_models_generate_content (reply_request intent urgency context))
    (fun e =>
       print ("API Error during reply generation: " +:+ exn_str e);;
       mret fallback_reply).

(** ** class LLMCoordinator *)

(** [__init__]: the coordinator owns a fresh [Memory()]. *)
Definition LLMCoordinator_new (w : World) : State :=
  {| st_world := w; st_requests := []; st_stdout := []; st_memory := Memory_new |}.

Definition ask (message : string) : M (gmap string pyvalue) :=
  add "user" message;;
  '(intent, urgency) ← classify message;
  context ← get_context;
  reply ← create_reply message intent urgency context;
  let final_output : gmap string pyvalue :=
    {[ "intent" := intent; "urgency" := urgency; "reply" := PyStr reply ]} in
  add "agent" reply;;
  mret final_output.

(** The driver's loop [for msg in messages: out = agent_llm.ask(msg)], with
    the outputs collected in call order. *)
Fixpoint ask_each (msgs : list string) : M (list (gmap string pyvalue)) :=
  match msgs with
  | [] => mret []
  | msg :: rest =>
      out ← ask msg;
      outs ← ask_each rest;
      mret (out :: outs)
  end.

End Program.

End Cordinator.

Import Cordinator.

(** ** Vocabulary of the specification *)

(** The [n] most recently added turns, all of them when there are fewer. *)
Definition most_recent {A : Type} (n : nat) (l : list A) : list A :=
  drop (length l - n)%nat l.

(** One turn as ["{role}: {content}"]. *)
Definition format_turn (m : Turn) : string := role m +:+ ": " +:+ content m.

(** The rendering in the words of section 4.1: the formatted turns of the
    window, joined by newlines. *)
Definition get_context_spec (msgs : list Turn) : string :=
  String.concat nl (format_turn <$> most_recent 5 msgs).

(** Every line followed by a newline. *)
Definition newline_terminated (lines : list string) : string :=
  fold_right (fun line rest => line +:+ nl +:+ rest) EmptyString lines.

(** What a turn says, without its timestamp. *)
Definition said (m : Turn) : string * string := (role m, content m).

(** The text under the key [reply] of an output of [ask]. *)
Definition reply_text (out : gmap string pyvalue) : string :=
  match out !! "reply" with
  | Some (PyStr r) => r
  | _ => EmptyString
  end.

(** The turns a run of calls appends, in order: per call the user message and
    then the reply that call returned. *)
Definition transcript (msgs : list string) (outs : list (gmap string pyvalue))
  : list (string * string) :=
  flat_map (fun '(msg, out) => [ ("user", msg); ("agent", reply_text out) ]) (zip msgs outs).

(** "The oldest surviving turn is the agent reply of call number [k]"
    (calls counted from 0). *)
Definition oldest_is_agent_reply_of (k : nat) (outs : list (gmap string pyvalue))
  (m : Memory) : Prop :=
  exists t out, head (messages m) = Some t /\ outs !! k = Some out /\
                role t = "agent" /\ content t = reply_text out.

(** "The oldest surviving turn is the user message of call number [k]". *)
Definition oldest_is_user_turn_of (k : nat) (msgs : list string) (m : Memory) : Prop :=
  exists t, head (messages m) = Some t /\ role t = "user" /\ msgs !! k = Some (content t).

(** ** A concrete backend, clock and parser to run the program on *)

Module Demo.

Definition answer_json : string :=
  "{" +:+ dquote +:+ "intent" +:+ dquote +:+ ": " +:+ dquote +:+ "general_help" +:+ dquote
  +:+ ", " +:+ dquote +:+ "urgency" +:+ dquote +:+ ": " +:+ dquote +:+ "low" +:+ dquote +:+ "}".

(** The world is the number of external calls made so far. *)
Definition backend (request : GenerateRequest) (w : nat) : outcome string * nat :=
  match config request with
  | Some _ => (Return answer_json, S w)
  | None => (Return "Happy to help. Could you share your order ID?", S w)
  end.

(** A backend that is down. *)
Definition backend_down (request : GenerateRequest) (w : nat) : outcome string * nat :=
  (Raise (OtherError "ServerError" "503 UNAVAILABLE"), S w).

(** A backend that answers the classification with a JSON array. *)
Definition backend_array (request : GenerateRequest) (w : nat) : outcome string * nat :=
  (Return "[]", S w).

Definition clock (w : nat) : string * nat := ("2025-01-01T09:00:00", S w).

(** [json.loads] on the three texts the backends above produce. *)
Definition loads (text : string) : outcome pyvalue :=
  if String.eqb text answer_json
  then Return (PyDict [ ("intent", PyStr "general_help"); ("urgency", PyStr "low") ])
  else if String.eqb text "[]" then Return (PyList [])
  else Raise (OtherError "JSONDecodeError" "Expecting value: line 1 column 1 (char 0)").

Definition str_of_exn (e : exn) : string :=
  match e with
  | KeyError key => "'" +:+ key +:+ "'"
  | TypeError _ => "object is not subscriptable"
  | OtherError _ message => message
  end.

Definition repr (v : pyvalue) : string := "<value>".

Definition run_ask := @ask nat backend clock loads str_of_exn repr.
Definition run_ask_each := @ask_each nat backend clock loads str_of_exn repr.

Definition eleven : list string :=
  [ "m1"; "m2"; "m3"; "m4"; "m5"; "m6"; "m7"; "m8"; "m9"; "m10"; "m11" ].

(** Eleven calls on a fresh coordinator. *)
Definition eleven_run := run_ask_each eleven (LLMCoordinator_new 0%nat).

Definition turn (r c : string) : Turn :=
  {| role := r; content := c; time := "2025-01-01T09:00:00" |}.

Definition state_of (m : Memory) : @State nat :=
  {| st_world := 0%nat; st_requests := []; st_stdout := []; st_memory := m |}.

End Demo.

(** ** Setup and the example driver *)

(** A state with its stored turns replaced, everything else kept. *)
Definition with_messages {World : Type} (st : @State World) (msgs : list Turn) : @State World :=
  {| st_world := st_world st; st_requests := st_requests st; st_stdout := st_stdout st;
     st_memory := {| messages := msgs; max_history := max_history (st_memory st) |} |}.

(** [genai.Client(api_key=..)]: the client object keeps the key it was given. *)
Record Client : Type := mkClient { api_key : string }.

(** [os.getenv(name)] on the environment of the process. *)
Definition os_getenv (environ : gmap string string) (name : string) : option string :=
  environ !! name.

Definition key_not_set : exn :=
  OtherError "ValueError" "GEMINI_API_KEY environment variable not set.".

(** Lines 113-117 of Cordinator.py.  [not api_key] holds for [None] and for the
    empty string. *)
Definition build_llm_client (environ : gmap string string) : outcome Client :=
  match os_getenv environ "GEMINI_API_KEY" with
  | None => Raise key_not_set
  | Some EmptyString => Raise key_not_set
  | Some key => Return {| api_key := key |}
  end.

(** [s * n] on strings. *)
Fixpoint str_times (s : string) (n : nat) : string :=
  match n with
  | O => EmptyString
  | S n' => s +:+ str_times s n'
  end.

Module Sample_run.

Section Driver.

Context {World : Type}.

(** The backend as reached through a given client. *)
Variable generate_with : Client -> GenerateRequest -> World -> outcome string * World.
Variable datetime_now_isoformat : World -> string * World.
Variable json_loads : string -> outcome pyvalue.
Variable exn_str : exn -> string.
Variable py_repr : pyvalue -> string.

(** [json.dumps(out, indent=2)] on an output of [ask]. *)
Variable json_dumps_indent2 : gmap string pyvalue -> string.

#[local] Existing Instance M_ret.
#[local] Existing Instance M_bind.

(** The list of lines 10-14. *)
Definition sample_messages : list string :=
  [ "I want to cancel my subscription.";
    "My invoice amount is wrong.";
    "Hello, I need help." ].

(** The loop of lines 16-20 for a coordinator built on [llm_client]. *)
Fixpoint for_each_message (llm_client : Client) (msgs : list string) : M unit :=
  match msgs with
  | [] => mret tt
  | msg :: rest =>
      print ("USER: " +:+ msg);;
      out ← ask (generate_with llm_client) datetime_now_isoformat json_loads exn_str py_repr msg;
      print (json_dumps_indent2 out);;
      print (str_times "-" 50);;
      for_each_message llm_client rest
  end.

(** [main()], with [build_llm_client] and [LLMCoordinator] being the
    definitions of Cordinator.py: what the process has done when it ends,
    normally or by the exception it raised: the world it leaves, the backend
    calls it made and the lines it printed. *)
Definition main (environ : gmap string string) (w : World)
  : outcome unit * (World * list GenerateRequest * list string) :=
  match build_llm_client environ with
  | Raise e => (Raise e, (w, [], []))
  | Return llm_client =>
      let '(r, st) := for_each_message llm_client sample_messages (LLMCoordinator_new w) in
      (r, (st_world st, st_requests st, st_stdout st))
  end.

End Driver.

End Sample_run.

(** The two requests one call of [ask] makes for [msg]: the classification
    request, then a request without response schema. *)
Definition exchange_requests (msg : string) (requests : list GenerateRequest) : Prop :=
  exists reply_request,
    requests = [ classify_request msg; reply_request ] /\ config reply_request = None.

(** The lines the driver prints for [msg]: the message, at most two error
    lines of the agents, the dumped output and the rule of 50 dashes. *)
Definition printed_block (dumps : gmap string pyvalue -> string) (msg : string)
  (block : list string) : Prop :=
  exists lines out,
    block = ("USER: " +:+ msg) :: lines ++ [ dumps out; str_times "-" 50 ] /\
    (length lines <= 2)%nat /\
    dom out = ({[ "intent"; "urgency"; "reply" ]} : gset string).

(** ** Concrete inputs for the driver *)

Module DemoRun.

(** A backend that serves one key only. *)
Definition generate_with (client : Client) (request : GenerateRequest) (w : nat)
  : outcome string * nat :=
  if String.eqb (api_key client) "secret-key"
  then Demo.backend request w
  else Demo.backend_down request w.

Definition dumps (out : gmap string pyvalue) : string := "{ ... }".

Definition environ_with_key : gmap string string :=
  {[ "GEMINI_API_KEY" := "secret-key"; "HOME" := "/root" ]}.

Definition environ_empty_key : gmap string string :=
  {[ "GEMINI_API_KEY" := EmptyString; "HOME" := "/root" ]}.

Definition run_main (environ : gmap string string) :=
  Sample_run.main generate_with Demo.clock Demo.loads Demo.str_of_exn Demo.repr dumps
    environ 0%nat.

Definition three_turns : list Turn :=
  [ Demo.turn "user" "a"; Demo.turn "agent" "b"; Demo.turn "user" "c" ].

Definition five_turns : list Turn :=
  [ Demo.turn "user" "c"; Demo.turn "agent" "d"; Demo.turn "user" "e";
    Demo.turn "agent" "f"; Demo.turn "user" "g" ].

End DemoRun.

(** * Properties *)

(** ** Slices and truncation *)

Lemma py_slice_from_0 {A : Type} (l : list A) : py_slice_from 0 l = l.
Proof.
  unfold py_slice_from. simpl.
  replace (Z.to_nat (Z.min 0 (Z.of_nat (length l)))) with 0%nat by lia.
  reflexivity.
Qed.

Lemma py_slice_from_neg {A : Type} (k : Z) (l : list A) :
  0 < k -> py_slice_from (- k) l = most_recent (Z.to_nat k) l.
Proof.
  intros Hk. unfold py_slice_from, most_recent.
  destruct (Z.ltb_spec (- k) 0) as [_ | Hge]; [ | lia ].
  f_equal. lia.
Qed.

Lemma most_recent_all {A : Type} (n : nat) (l : list A) :
  (length l <= n)%nat -> most_recent n l = l.
Proof.
  intros Hle. unfold most_recent.
  replace (length l - n)%nat with 0%nat by lia. reflexivity.
Qed.

Lemma most_recent_length {A : Type} (n : nat) (l : list A) :
  length (most_recent n l) = Nat.min (length l) n.
Proof. unfold most_recent. rewrite length_drop. lia. Qed.

Lemma most_recent_fmap {A B : Type} (f : A -> B) (n : nat) (l : list A) :
  f <$> most_recent n l = most_recent n (f <$> l).
Proof. unfold most_recent. rewrite fmap_drop, length_fmap. reflexivity. Qed.

(** Truncating, appending and truncating again keeps what one truncation of
    the whole keeps. *)
Lemma most_recent_app {A : Type} (n : nat) (l k : list A) :
  most_recent n (most_recent n l ++ k) = most_recent n (l ++ k).
Proof.
  unfold most_recent.
  rewrite !length_app, length_drop.
  destruct (Nat.le_gt_cases (length l) n) as [Hle | Hgt].
  - replace (length l - n)%nat with 0%nat by lia. simpl.
    f_equal. lia.
  - set (d := (length l - n)%nat).
    assert (Hsplit : l ++ k = take d l ++ (drop d l ++ k))
      by (rewrite app_assoc, take_drop; reflexivity).
    rewrite Hsplit.
    rewrite (drop_app_ge (take d l)) by (rewrite length_take; lia).
    rewrite length_take. f_equal. lia.
Qed.

Lemma most_recent_snoc {A : Type} (n : nat) (l : list A) (x : A) :
  (1 <= n)%nat -> exists older, most_recent n (l ++ [x]) = older ++ [x].
Proof.
  intros Hn. unfold most_recent. rewrite length_app. simpl.
  rewrite drop_app_le by lia. eauto.
Qed.

Lemma most_recent_snoc2 {A : Type} (n : nat) (l : list A) (x y : A) :
  (2 <= n)%nat -> exists older, most_recent n (l ++ [x; y]) = older ++ [x; y].
Proof.
  intros Hn. unfold most_recent. rewrite length_app. simpl.
  rewrite drop_app_le by lia. eauto.
Qed.

Lemma truncate_most_recent (mh : Z) (l : list Turn) :
  1 <= mh -> truncate mh l = most_recent (Z.to_nat mh) l.
Proof.
  intros Hmh. unfold truncate.
  destruct (Z.gtb_spec (Z.of_nat (length l)) mh) as [Hgt | Hle].
  - apply py_slice_from_neg. lia.
  - symmetry. apply most_recent_all. lia.
Qed.

(** With a bound of 0 the slice [messages[-0:]] is the whole list: nothing is
    dropped. *)
Lemma truncate_0 (l : list Turn) : truncate 0 l = l.
Proof.
  unfold truncate. destruct (Z.of_nat (length l) >? 0); [ | reflexivity ].
  apply py_slice_from_0.
Qed.

Lemma truncate_length (mh : Z) (l : list Turn) :
  1 <= mh -> Z.of_nat (length (truncate mh l)) = Z.min (Z.of_nat (length l)) mh.
Proof.
  intros Hmh. rewrite truncate_most_recent, most_recent_length by assumption. lia.
Qed.

Lemma truncate_twice (mh : Z) (l : list Turn) (x y : Turn) :
  1 <= mh ->
  truncate mh (truncate mh (l ++ [x]) ++ [y]) = most_recent (Z.to_nat mh) (l ++ [x; y]).
Proof.
  intros Hmh. rewrite !truncate_most_recent by assumption.
  rewrite most_recent_app, <- app_assoc. reflexivity.
Qed.

(** ** Strings and the rendering loop *)

Lemma append_nil_r (s : string) : s +:+ EmptyString = s.
Proof.
  induction s as [ | c s IH]; [ reflexivity | ].
  change (String c (s +:+ EmptyString) = String c s). now rewrite IH.
Qed.

Lemma append_assoc (s1 s2 s3 : string) : (s1 +:+ s2) +:+ s3 = s1 +:+ s2 +:+ s3.
Proof.
  induction s1 as [ | c s1 IH]; [ reflexivity | ].
  change (String c ((s1 +:+ s2) +:+ s3) = String c (s1 +:+ s2 +:+ s3)). now rewrite IH.
Qed.

Lemma render_line_format (m : Turn) : render_line m = format_turn m +:+ nl.
Proof. unfold render_line, format_turn. now rewrite !append_assoc. Qed.

(** The accumulating loop [out += line] builds the lines in list order. *)
Lemma render_loop (window : list Turn) (out : string) :
  fold_left (fun out m => out +:+ render_line m) window out
  = out +:+ newline_terminated (format_turn <$> window).
Proof.
  revert out. induction window as [ | m window IH]; intros out; simpl.
  - now rewrite append_nil_r.
  - rewrite IH, render_line_format, !append_assoc. reflexivity.
Qed.

Lemma render_most_recent (msgs : list Turn) :
  render msgs = newline_terminated (format_turn <$> most_recent 5 msgs).
Proof.
  unfold render. rewrite render_loop. simpl.
  now rewrite (py_slice_from_neg 5) by lia.
Qed.

(** Newline-terminated lines are the newline-joined lines plus one newline. *)
Lemma newline_terminated_concat (lines : list string) :
  lines <> [] -> newline_terminated lines = String.concat nl lines +:+ nl.
Proof.
  induction lines as [ | line [ | line' rest] IH]; intros Hne.
  - congruence.
  - simpl. reflexivity.
  - change (newline_terminated (line :: line' :: rest))
      with (line +:+ nl +:+ newline_terminated (line' :: rest)).
    rewrite IH by discriminate.
    change (String.concat nl (line :: line' :: rest))
      with (line +:+ nl +:+ String.concat nl (line' :: rest)).
    now rewrite !append_assoc.
Qed.

Lemma newline_terminated_snoc (lines : list string) (line : string) :
  newline_terminated (lines ++ [line]) = newline_terminated lines +:+ line +:+ nl.
Proof.
  induction lines as [ | l lines IH]; simpl.
  - reflexivity.
  - now rewrite IH, !append_assoc.
Qed.

Section Properties.

Context {World : Type}.
Variable generate_content : GenerateRequest -> World -> outcome string * World.
Variable datetime_now_isoformat : World -> string * World.
Variable json_loads : string -> outcome pyvalue.
Variable exn_str : exn -> string.
Variable py_repr : pyvalue -> string.

Abbreviation State := (@State World).
Abbreviation add := (add datetime_now_isoformat).
Abbreviation classify := (classify generate_content json_loads exn_str).
Abbreviation create_reply := (create_reply generate_content exn_str py_repr).
Abbreviation reply_request := (reply_request py_repr).
Abbreviation ask := (ask generate_content datetime_now_isoformat json_loads exn_str py_repr).
Abbreviation classification_fails := (classification_fails generate_content json_loads).
Abbreviation ask_each :=
  (ask_each generate_content datetime_now_isoformat json_loads exn_str py_repr).

(** ** One step of each operation *)

Lemma add_run (r c : string) (st : State) :
  exists t st',
    add r c st = (Return tt, st') /\
    st_requests st' = st_requests st /\
    st_stdout st' = st_stdout st /\
    st_memory st' =
      {| messages := truncate (max_history (st_memory st))
                       (messages (st_memory st) ++ [ {| role := r; content := c; time := t |} ]);
         max_history := max_history (st_memory st) |}.
Proof.
  unfold Cordinator.add, mbind, M_bind, get_memory, now, set_memory.
  destruct (datetime_now_isoformat (st_world st)) as [t w] eqn:Hnow.
  exists t. eexists. simpl. split; [ reflexivity | ]. simpl. auto.
Qed.

Lemma classify_run (message : string) (st : State) :
  exists intent urgency st',
    classify message st = (Return (intent, urgency), st') /\
    st_memory st' = st_memory st /\
    st_requests st' = st_requests st ++ [ classify_request message ].
Proof.
  unfold Cordinator.classify, try_except, mbind, M_bind, mret, M_ret,
    client_models_generate_content, lift, print.
  destruct (generate_content (classify_request message) (st_world st)) as [[text | e] w];
    [ destruct (json_loads text) as [result | e];
      [ destruct (py_getitem result "intent") as [intent | e];
        [ destruct (py_getitem result "urgency") as [urgency | e] | ] | ] | ];
    simpl; do 3 eexists; (split; [ reflexivity | ]); simpl; auto.
Qed.

Lemma create_reply_run (message : string) (intent urgency : pyvalue) (context : string)
  (st : State) :
  exists reply st',
    create_reply message intent urgency context st = (Return reply, st') /\
    st_memory st' = st_memory st /\
    st_requests st' = st_requests st ++ [ reply_request intent urgency context ].
Proof.
  unfold Cordinator.create_reply, try_except, mbind, M_bind, mret, M_ret,
    client_models_generate_content, print.
  destruct (generate_content (reply_request intent urgency context) (st_world st))
    as [[text | e] w];
    simpl; do 2 eexists; (split; [ reflexivity | ]); simpl; auto.
Qed.

Lemma get_context_run (st : State) :
  get_context st = (Return (render (messages (st_memory st))), st).
Proof. reflexivity. Qed.

(** [ask] step by step: the intermediate states and what each step leaves. *)
Lemma ask_run (message : string) (st : State) :
  exists t1 t2 intent urgency reply st1 st2 st',
    add "user" message st = (Return tt, st1) /\
    classify message st1 = (Return (intent, urgency), st2) /\
    st_memory st1 =
      {| messages := truncate (max_history (st_memory st))
                       (messages (st_memory st)
                        ++ [ {| role := "user"; content := message; time := t1 |} ]);
         max_history := max_history (st_memory st) |} /\
    st_memory st2 = st_memory st1 /\
    ask message st =
      (Return {[ "intent" := intent; "urgency" := urgency; "reply" := PyStr reply ]}, st') /\
    st_requests st' =
      st_requests st ++ [ classify_request message;
                          reply_request intent urgency (render (messages (st_memory st1))) ] /\
    st_memory st' =
      {| messages := truncate (max_history (st_memory st))
                       (messages (st_memory st1)
                        ++ [ {| role := "agent"; content := reply; time := t2 |} ]);
         max_history := max_history (st_memory st) |}.
Proof.
  destruct (add_run "user" message st) as (t1 & st1 & Hadd1 & Hreq1 & _ & Hmem1).
  destruct (classify_run message st1) as (intent & urgency & st2 & Hcls & Hmem2 & Hreq2).
  destruct (create_reply_run message intent urgency (render (messages (st_memory st2))) st2)
    as (reply & st3 & Hrep & Hmem3 & Hreq3).
  destruct (add_run "agent" reply st3) as (t2 & st' & Hadd2 & Hreq4 & _ & Hmem4).
  exists t1, t2, intent, urgency, reply, st1, st2, st'.
  repeat split; try assumption.
  - unfold Cordinator.ask, mbind, M_bind, mret, M_ret.
    rewrite Hadd1, Hcls, get_context_run, Hrep, Hadd2. reflexivity.
  - rewrite Hreq4, Hreq3, Hreq2, Hreq1, Hmem2, <- app_assoc. reflexivity.
  - rewrite Hmem4, Hmem3, Hmem2, Hmem1. reflexivity.
Qed.

(** ** Memory *)

(** With a bound of at least 1, [add] keeps exactly the most recent
    [max_history] turns, so the bound holds after every call. *)
Lemma add_keeps_bound (r c : string) (st : State) :
  1 <= max_history (st_memory st) ->
  exists t st',
    add r c st = (Return tt, st') /\
    max_history (st_memory st') = max_history (st_memory st) /\
    messages (st_memory st') =
      most_recent (Z.to_nat (max_history (st_memory st)))
        (messages (st_memory st) ++ [ {| role := r; content := c; time := t |} ]) /\
    Z.of_nat (length (messages (st_memory st'))) <= max_history (st_memory st').
Proof.
  intros Hmh.
  destruct (add_run r c st) as (t & st' & Hadd & _ & _ & Hmem).
  exists t, st'. rewrite Hmem. simpl.
  rewrite truncate_most_recent by assumption.
  repeat split; try assumption.
  rewrite most_recent_length. lia.
Qed.

(** With a bound of 0 the slice is [messages[-0:]], the whole list: [add] drops
    nothing and the memory grows by one turn per call. *)
Lemma add_zero_bound_grows (r c : string) (st : State) :
  max_history (st_memory st) = 0 ->
  exists t st',
    add r c st = (Return tt, st') /\
    max_history (st_memory st') = 0 /\
    messages (st_memory st') =
      messages (st_memory st) ++ [ {| role := r; content := c; time := t |} ].
Proof.
  intros Hmh.
  destruct (add_run r c st) as (t & st' & Hadd & _ & _ & Hmem).
  exists t, st'. rewrite Hmem, Hmh. simpl. rewrite truncate_0. auto.
Qed.

(** C2, as amended. [get_context] returns the most recent 5 turns (all of
    them when there are fewer), oldest first, each formatted as
    "role: content" and each FOLLOWED by a newline, so a non-empty rendering
    ends with a newline; on an empty memory it returns the empty string. *)
Theorem get_context_newline_terminated (st : State) :
  get_context st =
    (Return (newline_terminated (format_turn <$> most_recent 5 (messages (st_memory st)))), st)
  /\ (forall (w : World) (requests : list GenerateRequest) (stdout : list string) (mh : Z),
        get_context {| st_world := w; st_requests := requests; st_stdout := stdout;
                       st_memory := {| messages := []; max_history := mh |} |}
        = (Return EmptyString,
           {| st_world := w; st_requests := requests; st_stdout := stdout;
              st_memory := {| messages := []; max_history := mh |} |})).
Proof.
  split.
  - rewrite get_context_run, render_most_recent. reflexivity.
  - intros. reflexivity.
Qed.

(** What separates the code from the wording of C2: one trailing newline. *)
Lemma get_context_vs_joined (st : State) :
  messages (st_memory st) <> [] ->
  get_context st = (Return (get_context_spec (messages (st_memory st)) +:+ nl), st).
Proof.
  intros Hne. rewrite get_context_run, render_most_recent. unfold get_context_spec.
  rewrite newline_terminated_concat; [ reflexivity | ].
  intros Hnil. apply Hne.
  apply (f_equal length) in Hnil. rewrite length_fmap, most_recent_length in Hnil.
  destruct (messages (st_memory st)); [ reflexivity | simpl in Hnil; lia ].
Qed.

(** C9. [get_context] is a pure read: the state after the call, and so the
    stored turns and [max_history], is the state before it. *)
Theorem get_context_pure_read (st : State) :
  exists out st',
    get_context st = (Return out, st') /\
    st' = st /\
    messages (st_memory st') = messages (st_memory st) /\
    max_history (st_memory st') = max_history (st_memory st).
Proof. exists (render (messages (st_memory st))), st. repeat split. Qed.

(** ** The two agents *)

(** C6. Whenever the classification call fails (the backend raises, answers
    with malformed JSON, or the answer lacks a key), [classify] does not raise:
    it returns the pair ("error", "low"), prints one error line and leaves the
    memory alone.  In particular a backend that fails on every call makes
    [classify] return ("error", "low") for every message. *)
Theorem classify_failure_sentinel :
  (forall (message : string) (st : State),
      classification_fails message (st_world st) ->
      exists e st',
        classify message st = (Return (PyStr "error", PyStr "low"), st') /\
        st_stdout st' =
          st_stdout st ++ [ "API Error during intent classification: " +:+ exn_str e ] /\
        st_memory st' = st_memory st)
  /\ ((forall request w, exists e w', generate_content request w = (Raise e, w')) ->
      forall (message : string) (st : State),
      exists st', classify message st = (Return (PyStr "error", PyStr "low"), st')).
Proof.
  assert (Hone : forall (message : string) (st : State),
             classification_fails message (st_world st) ->
             exists e st',
               classify message st = (Return (PyStr "error", PyStr "low"), st') /\
               st_stdout st' =
                 st_stdout st ++ [ "API Error during intent classification: " +:+ exn_str e ] /\
               st_memory st' = st_memory st).
  { intros message st Hfail.
    unfold Cordinator.classify, try_except, mbind, M_bind, mret, M_ret,
      client_models_generate_content, lift, print.
    destruct Hfail as [e w' Hgen | text w' e Hgen Hjson
                      | text w' result key e Hgen Hjson Hkey Hget].
    - rewrite Hgen. simpl. exists e. eexists. repeat split.
    - rewrite Hgen. simpl. rewrite Hjson. simpl. exists e. eexists. repeat split.
    - rewrite Hgen. simpl. rewrite Hjson. simpl.
      destruct Hkey as [-> | ->].
      + rewrite Hget. simpl. exists e. eexists. repeat split.
      + destruct (py_getitem result "intent") as [intent | e']; simpl.
        * rewrite Hget. simpl. exists e. eexists. repeat split.
        * exists e'. eexists. repeat split. }
  split; [ exact Hone | ].
  intros Hdown message st.
  destruct (Hdown (classify_request message) (st_world st)) as (e & w' & Hgen).
  destruct (Hone message st (backend_raises _ _ message (st_world st) e w' Hgen))
    as (e' & st' & Hrun & _).
  exists st'. exact Hrun.
Qed.

(** C7. [create_reply] returns the text the backend generated, unchanged, when
    the call succeeds; when the call raises it does not raise itself and
    returns [fallback_reply], one string that depends on none of the
    arguments. *)
Theorem create_reply_verbatim_or_fallback
  (message : string) (intent urgency : pyvalue) (context : string) (st : State) :
  (forall text w,
      generate_content (reply_request intent urgency context) (st_world st) = (Return text, w) ->
      exists st', create_reply message intent urgency context st = (Return text, st'))
  /\ (forall e w,
        generate_content (reply_request intent urgency context) (st_world st) = (Raise e, w) ->
        exists st',
          create_reply message intent urgency context st = (Return fallback_reply, st') /\
          st_stdout st' =
            st_stdout st ++ [ "API Error during reply generation: " +:+ exn_str e ]).
Proof.
  unfold Cordinator.create_reply, try_except, mbind, M_bind, mret, M_ret,
    client_models_generate_content, print.
  split.
  - intros text w Hgen. rewrite Hgen. eexists. reflexivity.
  - intros e w Hgen. rewrite Hgen. simpl. eexists. split; reflexivity.
Qed.

(** ** The coordinator *)

Lemma most_recent_5_snoc (older : list Turn) (u : Turn) :
  most_recent 5 (older ++ [u]) = most_recent 4 older ++ [u].
Proof.
  unfold most_recent. rewrite length_app. simpl.
  rewrite drop_app_le by lia. f_equal. f_equal. lia.
Qed.

(** With a bound that is not negative the turn just added is the newest
    one stored. *)
Lemma truncate_snoc (mh : Z) (l : list Turn) (x : Turn) :
  0 <= mh -> exists older, truncate mh (l ++ [x]) = older ++ [x] /\ older `suffix_of` l.
Proof.
  intros Hmh. destruct (Z.eq_dec mh 0) as [-> | Hne].
  - exists l. now rewrite truncate_0.
  - rewrite truncate_most_recent by lia. unfold most_recent.
    rewrite length_app. simpl.
    rewrite drop_app_le by lia.
    eexists. split; [ reflexivity | apply suffix_drop ].
Qed.

(** C3. For every non-empty message, every state of the coordinator and every
    behaviour of the backend, [ask] does not raise and returns a dict with
    exactly the keys intent, urgency and reply (the reply being a text). *)
Theorem ask_never_raises (message : string) (st : State) :
  message <> EmptyString ->
  exists out st',
    ask message st = (Return out, st') /\
    dom out = ({[ "intent"; "urgency"; "reply" ]} : gset string) /\
    exists intent urgency reply,
      out = {[ "intent" := intent; "urgency" := urgency; "reply" := PyStr reply ]}.
Proof.
  intros _.
  destruct (ask_run message st)
    as (t1 & t2 & intent & urgency & reply & st1 & st2 & st' & _ & _ & _ & _ & Hask & _).
  eexists. exists st'. split; [ exact Hask | ]. split.
  - rewrite !dom_insert_L, dom_singleton_L. set_solver.
  - eauto.
Qed.

(** C8. In a call [ask message] the classification request is sent first; the
    context is then read, by [get_context], from the state the classification
    left, whose memory is the one right after the user turn was appended; and
    that context is what the reply request carries.  When [max_history] is not
    negative the context ends with the line of the message just added,
    preceded by the lines of up to four turns of the history before it. *)
Theorem ask_context_after_user_turn (message : string) (st : State) :
  exists st1 st2 intent urgency context out st',
    add "user" message st = (Return tt, st1) /\
    classify message st1 = (Return (intent, urgency), st2) /\
    st_memory st2 = st_memory st1 /\
    get_context st2 = (Return context, st2) /\
    ask message st = (Return out, st') /\
    st_requests st' =
      st_requests st ++ [ classify_request message; reply_request intent urgency context ] /\
    (0 <= max_history (st_memory st) ->
     exists t older,
       messages (st_memory st1)
         = older ++ [ {| role := "user"; content := message; time := t |} ] /\
       older `suffix_of` messages (st_memory st) /\
       context = newline_terminated (format_turn <$> most_recent 4 older)
                 +:+ "user: " +:+ message +:+ nl).
Proof.
  destruct (ask_run message st)
    as (t1 & t2 & intent & urgency & reply & st1 & st2 & st'
        & Hadd & Hcls & Hmem1 & Hmem2 & Hask & Hreq & _).
  exists st1, st2, intent, urgency, (render (messages (st_memory st1))). eexists. exists st'.
  repeat split; try eassumption.
  - rewrite get_context_run, Hmem2. reflexivity.
  - intros Hmh.
    destruct (truncate_snoc (max_history (st_memory st)) (messages (st_memory st))
                {| role := "user"; content := message; time := t1 |} Hmh)
      as (older & Holder & Hsuffix).
    exists t1, older. rewrite Hmem1. simpl. rewrite Holder.
    repeat split; try assumption.
    rewrite render_most_recent, most_recent_5_snoc, fmap_app.
    change (format_turn <$> [ {| role := "user"; content := message; time := t1 |} ])
      with [ "user: " +:+ message ].
    rewrite newline_terminated_snoc, !append_assoc. reflexivity.
Qed.

(** C10. With [max_history] at least 2, after [ask message] the last two
    stored turns are the user turn holding [message] and the agent turn
    holding the returned reply, and the returned intent and urgency are the
    pair [classify] produced. *)
Theorem ask_result_matches_memory (message : string) (st : State) :
  2 <= max_history (st_memory st) ->
  exists st1 st2 intent urgency out st' older user_turn agent_turn,
    add "user" message st = (Return tt, st1) /\
    classify message st1 = (Return (intent, urgency), st2) /\
    ask message st = (Return out, st') /\
    out !! "intent" = Some intent /\
    out !! "urgency" = Some urgency /\
    out !! "reply" = Some (PyStr (content agent_turn)) /\
    messages (st_memory st') = older ++ [ user_turn; agent_turn ] /\
    role user_turn = "user" /\ content user_turn = message /\
    role agent_turn = "agent".
Proof.
  intros Hmh.
  destruct (ask_run message st)
    as (t1 & t2 & intent & urgency & reply & st1 & st2 & st'
        & Hadd & Hcls & Hmem1 & _ & Hask & _ & Hmem').
  rewrite Hmem1 in Hmem'. simpl in Hmem'.
  rewrite truncate_twice in Hmem' by lia.
  destruct (most_recent_snoc2 (Z.to_nat (max_history (st_memory st)))
              (messages (st_memory st))
              {| role := "user"; content := message; time := t1 |}
              {| role := "agent"; content := reply; time := t2 |}) as (older & Holder);
    [ lia | ].
  exists st1, st2, intent, urgency. eexists. exists st', older. do 2 eexists.
  split; [ exact Hadd | ]. split; [ exact Hcls | ]. split; [ exact Hask | ].
  split; [ reflexivity | ]. split; [ reflexivity | ].
  split; [ | split; [ rewrite Hmem'; simpl; exact Holder | simpl; auto ] ].
  reflexivity.
Qed.

(** One call appends the user turn and the agent turn and keeps the most
    recent [max_history] turns of the result. *)
Lemma ask_two_turns (message : string) (st : State) :
  1 <= max_history (st_memory st) ->
  exists out st' t1 t2,
    ask message st = (Return out, st') /\
    max_history (st_memory st') = max_history (st_memory st) /\
    messages (st_memory st') =
      most_recent (Z.to_nat (max_history (st_memory st)))
        (messages (st_memory st)
         ++ [ {| role := "user"; content := message; time := t1 |};
              {| role := "agent"; content := reply_text out; time := t2 |} ]).
Proof.
  intros Hmh.
  destruct (ask_run message st)
    as (t1 & t2 & intent & urgency & reply & st1 & st2 & st'
        & _ & _ & Hmem1 & _ & Hask & _ & Hmem').
  rewrite Hmem1 in Hmem'. simpl in Hmem'.
  rewrite truncate_twice in Hmem' by lia.
  eexists. exists st', t1, t2.
  split; [ exact Hask | ]. rewrite Hmem'. split; reflexivity.
Qed.

Lemma transcript_length (msgs : list string) (outs : list (gmap string pyvalue)) :
  length outs = length msgs -> length (transcript msgs outs) = (2 * length msgs)%nat.
Proof.
  revert outs. induction msgs as [ | msg msgs IH]; intros [ | out outs] Hlen;
    simpl in *; try lia.
  unfold transcript in IH. rewrite IH by lia. lia.
Qed.

(** A run of calls on a memory within its bound: no call raises, and the
    memory ends as the most recent [max_history] turns of the old turns
    followed by the transcript of the run. *)
Lemma ask_each_run (msgs : list string) (st : State) :
  1 <= max_history (st_memory st) ->
  Z.of_nat (length (messages (st_memory st))) <= max_history (st_memory st) ->
  exists outs st',
    ask_each msgs st = (Return outs, st') /\
    length outs = length msgs /\
    max_history (st_memory st') = max_history (st_memory st) /\
    said <$> messages (st_memory st') =
      most_recent (Z.to_nat (max_history (st_memory st)))
        ((said <$> messages (st_memory st)) ++ transcript msgs outs).
Proof.
  revert st. induction msgs as [ | msg msgs IH]; intros st Hmh Hlen.
  - exists [], st. repeat split.
    unfold transcript. simpl. rewrite app_nil_r.
    symmetry. apply most_recent_all. rewrite length_fmap. lia.
  - destruct (ask_two_turns msg st Hmh) as (out & st1 & t1 & t2 & Hask & Hmh1 & Hmem1).
    destruct (IH st1) as (outs & st' & Hrun & Hlen' & Hmh' & Hmem').
    + lia.
    + rewrite Hmem1, most_recent_length. lia.
    + exists (out :: outs), st'.
      split; [ | split; [ simpl; lia | split; [ congruence | ] ] ].
      * simpl. unfold mbind, M_bind, mret, M_ret.
        rewrite Hask. fold ask_each. rewrite Hrun. reflexivity.
      * rewrite Hmem', Hmh1, Hmem1, most_recent_fmap, most_recent_app, fmap_app.
        rewrite <- app_assoc. reflexivity.
Qed.

(** C4. On a coordinator whose memory bound is at least 1 (the constructor
    sets it to 20 and nothing changes it), one call of [ask] appends a user
    turn and an agent turn and then holds [min (n + 2) max_history] turns,
    where [n] is the number held before; and [N] calls starting from an empty
    memory leave [min (2 N) max_history] turns. *)
Theorem ask_memory_length (st : State) :
  1 <= max_history (st_memory st) ->
  (forall message,
      exists out st' user_turn agent_turn,
        ask message st = (Return out, st') /\
        role user_turn = "user" /\ content user_turn = message /\
        role agent_turn = "agent" /\ content agent_turn = reply_text out /\
        messages (st_memory st') =
          truncate (max_history (st_memory st))
            (truncate (max_history (st_memory st)) (messages (st_memory st) ++ [ user_turn ])
             ++ [ agent_turn ]) /\
        max_history (st_memory st') = max_history (st_memory st) /\
        Z.of_nat (length (messages (st_memory st'))) =
          Z.min (Z.of_nat (length (messages (st_memory st))) + 2) (max_history (st_memory st)))
  /\ (messages (st_memory st) = [] ->
      forall msgs,
      exists outs st',
        ask_each msgs st = (Return outs, st') /\
        Z.of_nat (length (messages (st_memory st'))) =
          Z.min (2 * Z.of_nat (length msgs)) (max_history (st_memory st))).
Proof.
  intros Hmh. split.
  - intros message.
    destruct (ask_two_turns message st Hmh) as (out & st' & t1 & t2 & Hask & Hmh' & Hmem').
    exists out, st', {| role := "user"; content := message; time := t1 |},
      {| role := "agent"; content := reply_text out; time := t2 |}.
    split; [ exact Hask | ].
    do 4 (split; [ reflexivity | ]).
    split; [ rewrite truncate_twice by assumption; exact Hmem' | ].
    split; [ exact Hmh' | ].
    rewrite Hmem', most_recent_length, length_app. simpl. lia.
  - intros Hempty msgs.
    destruct (ask_each_run msgs st Hmh) as (outs & st' & Hrun & Hlen & _ & Hmem');
      [ rewrite Hempty; simpl; lia | ].
    exists outs, st'. split; [ exact Hrun | ].
    apply (f_equal length) in Hmem'.
    rewrite length_fmap, most_recent_length, Hempty in Hmem'. simpl in Hmem'.
    rewrite transcript_length in Hmem' by assumption. lia.
Qed.

(** C1, as amended. With [max_history = 20], eleven calls of [ask] on a fresh
    coordinator leave exactly 20 turns: the 22 turns of the run without the
    first two, which are the user turn and the agent turn of the first call.
    The oldest surviving turn is the USER turn of the second call. *)
Theorem eleven_asks_evict_first_call (w : World) (msgs : list string) :
  length msgs = 11%nat ->
  exists outs st',
    ask_each msgs (LLMCoordinator_new w) = (Return outs, st') /\
    length (messages (st_memory st')) = 20%nat /\
    said <$> messages (st_memory st') = drop 2 (transcript msgs outs) /\
    take 2 (transcript msgs outs)
      = [ ("user", default EmptyString (msgs !! 0%nat));
          ("agent", default EmptyString (reply_text <$> outs !! 0%nat)) ] /\
    oldest_is_user_turn_of 1 msgs (st_memory st').
Proof.
  intros Hlen.
  destruct (ask_each_run msgs (LLMCoordinator_new w)) as (outs & st' & Hrun & Hlen' & _ & Hmem');
    [ simpl; lia | simpl; lia | ].
  simpl in Hmem'.
  assert (Hdrop : said <$> messages (st_memory st') = drop 2 (transcript msgs outs)).
  { rewrite Hmem'. unfold most_recent.
    rewrite transcript_length by assumption. rewrite Hlen. reflexivity. }
  exists outs, st'. split; [ exact Hrun | ].
  split; [ | split; [ exact Hdrop | ] ].
  - apply (f_equal length) in Hdrop.
    rewrite length_fmap, length_drop, transcript_length in Hdrop by assumption. lia.
  - destruct msgs as [ | m1 [ | m2 msgs]]; try discriminate Hlen.
    destruct outs as [ | o1 [ | o2 outs]]; try (simpl in Hlen'; lia).
    split; [ reflexivity | ].
    unfold oldest_is_user_turn_of.
    destruct (messages (st_memory st')) as [ | t ts]; [ discriminate Hdrop | ].
    exists t. unfold transcript in Hdrop. simpl in Hdrop.
    assert (Hsaid : (role t, content t) = ("user", m2)) by (unfold said in Hdrop; congruence).
    repeat split; [ congruence | simpl; congruence ].
Qed.

End Properties.

(** * The program on concrete inputs *)

(** C5, at the bound 0. The empty memory with [max_history = 0] satisfies
    [length <= max_history]; [add] then stores the new turn and drops nothing,
    because [messages[-0:]] is the whole list, so one turn is held against a
    bound of 0. *)
Theorem add_zero_bound_exceeded :
  let st := Demo.state_of {| messages := []; max_history := 0 |} in
  Z.of_nat (length (messages (st_memory st))) <= max_history (st_memory st) /\
  exists st',
    add Demo.clock "user" "hi" st = (Return tt, st') /\
    messages (st_memory st') = [ Demo.turn "user" "hi" ] /\
    max_history (st_memory st') = 0 /\
    ~ Z.of_nat (length (messages (st_memory st'))) <= max_history (st_memory st').
Proof.
  split; [ simpl; lia | ].
  eexists. split; [ vm_compute; reflexivity | ]. simpl.
  split; [ reflexivity | ]. split; [ reflexivity | lia ].
Qed.

(** C1 as worded fails: after eleven calls the oldest stored turn is the user
    turn "m2" of the second call, not the agent reply of that call. *)
Lemma eleven_asks_oldest_is_not_agent_reply :
  (exists outs, fst Demo.eleven_run = Return outs) /\
  length (messages (st_memory (snd Demo.eleven_run))) = 20%nat /\
  head (messages (st_memory (snd Demo.eleven_run))) = Some (Demo.turn "user" "m2") /\
  forall outs,
    fst Demo.eleven_run = Return outs ->
    ~ oldest_is_agent_reply_of 1 outs (st_memory (snd Demo.eleven_run)).
Proof.
  assert (Hhead : head (messages (st_memory (snd Demo.eleven_run)))
                  = Some (Demo.turn "user" "m2")) by (vm_compute; reflexivity).
  split; [ | split; [ vm_compute; reflexivity | split; [ exact Hhead | ] ] ].
  - destruct (ask_each_run Demo.backend Demo.clock Demo.loads Demo.str_of_exn Demo.repr
                Demo.eleven (LLMCoordinator_new 0%nat)) as (outs & st' & Hrun & _);
      [ simpl; lia | simpl; lia | ].
    exists outs. unfold Demo.eleven_run, Demo.run_ask_each. now rewrite Hrun.
  - intros outs _ (t & out & Hh & _ & Hrole & _).
    rewrite Hhead in Hh. injection Hh as <-. discriminate Hrole.
Qed.

(** C2 as worded fails: for a memory of one turn the code returns its line
    with a newline after it, and the newline-joined rendering has none. *)
Lemma get_context_is_not_newline_joined :
  let st := Demo.state_of {| messages := [ Demo.turn "user" "hi" ]; max_history := 20 |} in
  get_context st = (Return ("user: hi" +:+ nl), st) /\
  get_context_spec (messages (st_memory st)) = "user: hi" /\
  get_context st <> (Return (get_context_spec (messages (st_memory st))), st).
Proof.
  split; [ reflexivity | ]. split; [ reflexivity | ].
  vm_compute. intros H. discriminate H.
Qed.

(** ** The theorems applied to the concrete backend *)

Lemma ask_never_raises_witness :
  "Hello, I need help." <> EmptyString /\
  exists out st',
    ask Demo.backend Demo.clock Demo.loads Demo.str_of_exn Demo.repr
      "Hello, I need help." (LLMCoordinator_new 0%nat) = (Return out, st') /\
    dom out = ({[ "intent"; "urgency"; "reply" ]} : gset string) /\
    exists intent urgency reply,
      out = {[ "intent" := intent; "urgency" := urgency; "reply" := PyStr reply ]}.
Proof.
  split; [ discriminate | ].
  apply (ask_never_raises Demo.backend Demo.clock Demo.loads Demo.str_of_exn Demo.repr
           "Hello, I need help." (LLMCoordinator_new 0%nat)).
  discriminate.
Defined.

Lemma ask_memory_length_witness :
  1 <= max_history (st_memory (LLMCoordinator_new 0%nat)) /\
  messages (st_memory (LLMCoordinator_new 0%nat)) = [] /\
  exists outs st',
    Demo.run_ask_each Demo.eleven (LLMCoordinator_new 0%nat) = (Return outs, st') /\
    Z.of_nat (length (messages (st_memory st'))) =
      Z.min (2 * Z.of_nat (length Demo.eleven)) (max_history (st_memory (LLMCoordinator_new 0%nat))).
Proof.
  split; [ simpl; lia | ]. split; [ reflexivity | ].
  destruct (ask_memory_length Demo.backend Demo.clock Demo.loads Demo.str_of_exn Demo.repr
              (LLMCoordinator_new 0%nat)) as [_ Hrun]; [ simpl; lia | ].
  exact (Hrun eq_refl Demo.eleven).
Defined.

Lemma classify_failure_sentinel_witness :
  classification_fails Demo.backend_down Demo.loads "test" 0%nat /\
  (forall request w, exists e w', Demo.backend_down request w = (Raise e, w')) /\
  exists st',
    classify Demo.backend_down Demo.loads Demo.str_of_exn "test" (LLMCoordinator_new 0%nat)
    = (Return (PyStr "error", PyStr "low"), st').
Proof.
  assert (Hfails : classification_fails Demo.backend_down Demo.loads "test" 0%nat)
    by (eapply backend_raises; reflexivity).
  assert (Hdown : forall request (w : nat), exists e w',
             Demo.backend_down request w = (Raise e, w'))
    by (intros request w; do 2 eexists; reflexivity).
  split; [ exact Hfails | ]. split; [ exact Hdown | ].
  destruct (classify_failure_sentinel Demo.backend_down Demo.loads Demo.str_of_exn)
    as [Hone Hall].
  destruct (Hone "test" (LLMCoordinator_new 0%nat) Hfails) as (e & st' & Hrun & _).
  destruct (Hall Hdown "test" (LLMCoordinator_new 0%nat)) as (st'' & Hrun').
  exists st''. exact Hrun'.
Defined.

Lemma create_reply_verbatim_or_fallback_witness :
  (exists st',
      create_reply Demo.backend Demo.str_of_exn Demo.repr
        "hi" (PyStr "general_help") (PyStr "low") "user: hi" (LLMCoordinator_new 0%nat)
      = (Return "Happy to help. Could you share your order ID?", st')) /\
  (exists st',
      create_reply Demo.backend_down Demo.str_of_exn Demo.repr
        "hi" (PyStr "general_help") (PyStr "low") "user: hi" (LLMCoordinator_new 0%nat)
      = (Return fallback_reply, st') /\
      st_stdout st' = [ "API Error during reply generation: 503 UNAVAILABLE" ]).
Proof.
  split.
  - destruct (create_reply_verbatim_or_fallback Demo.backend Demo.str_of_exn Demo.repr
                "hi" (PyStr "general_help") (PyStr "low") "user: hi" (LLMCoordinator_new 0%nat))
      as [Hok _].
    exact (Hok _ _ eq_refl).
  - destruct (create_reply_verbatim_or_fallback Demo.backend_down Demo.str_of_exn Demo.repr
                "hi" (PyStr "general_help") (PyStr "low") "user: hi" (LLMCoordinator_new 0%nat))
      as [_ Hfail].
    exact (Hfail _ _ eq_refl).
Defined.

Lemma ask_context_after_user_turn_witness :
  0 <= max_history (st_memory (LLMCoordinator_new 0%nat)) /\
  exists intent urgency context older out st',
    ask Demo.backend Demo.clock Demo.loads Demo.str_of_exn Demo.repr
      "hi" (LLMCoordinator_new 0%nat) = (Return out, st') /\
    st_requests st' =
      [ classify_request "hi"; reply_request Demo.repr intent urgency context ] /\
    older `suffix_of` [] /\
    context = newline_terminated (format_turn <$> most_recent 4 older) +:+ "user: hi" +:+ nl.
Proof.
  split; [ simpl; lia | ].
  destruct (ask_context_after_user_turn Demo.backend Demo.clock Demo.loads Demo.str_of_exn
              Demo.repr "hi" (LLMCoordinator_new 0%nat))
    as (st1 & st2 & intent & urgency & context & out & st' & _ & _ & _ & _
        & Hask & Hreq & Hincl).
  destruct Hincl as (t & older & _ & Hsuffix & Hcontext); [ simpl; lia | ].
  exists intent, urgency, context, older, out, st'.
  split; [ exact Hask | ]. split; [ exact Hreq | ]. split; [ exact Hsuffix | exact Hcontext ].
Defined.

Lemma ask_result_matches_memory_witness :
  2 <= max_history (st_memory (LLMCoordinator_new 0%nat)) /\
  exists st1 st2 intent urgency out st' older user_turn agent_turn,
    add Demo.clock "user" "hi" (LLMCoordinator_new 0%nat) = (Return tt, st1) /\
    classify Demo.backend Demo.loads Demo.str_of_exn "hi" st1 = (Return (intent, urgency), st2) /\
    ask Demo.backend Demo.clock Demo.loads Demo.str_of_exn Demo.repr
      "hi" (LLMCoordinator_new 0%nat) = (Return out, st') /\
    out !! "intent" = Some intent /\
    out !! "urgency" = Some urgency /\
    out !! "reply" = Some (PyStr (content agent_turn)) /\
    messages (st_memory st') = older ++ [ user_turn; agent_turn ] /\
    role user_turn = "user" /\ content user_turn = "hi" /\
    role agent_turn = "agent".
Proof.
  split; [ simpl; lia | ].
  apply (ask_result_matches_memory Demo.backend Demo.clock Demo.loads Demo.str_of_exn
           Demo.repr "hi" (LLMCoordinator_new 0%nat)).
  simpl. lia.
Defined.

Lemma eleven_asks_evict_first_call_witness :
  length Demo.eleven = 11%nat /\
  exists outs st',
    Demo.run_ask_each Demo.eleven (LLMCoordinator_new 0%nat) = (Return outs, st') /\
    length (messages (st_memory st')) = 20%nat /\
    said <$> messages (st_memory st') = drop 2 (transcript Demo.eleven outs) /\
    take 2 (transcript Demo.eleven outs)
      = [ ("user", default EmptyString (Demo.eleven !! 0%nat));
          ("agent", default EmptyString (reply_text <$> outs !! 0%nat)) ] /\
    oldest_is_user_turn_of 1 Demo.eleven (st_memory st').
Proof.
  split; [ reflexivity | ].
  apply (eleven_asks_evict_first_call Demo.backend Demo.clock Demo.loads Demo.str_of_exn
           Demo.repr 0%nat Demo.eleven).
  reflexivity.
Defined.

(** * Further properties of the code *)

(** ** Lists *)

Lemma most_recent_last {A : Type} (n : nat) (l : list A) (x : A) :
  (1 <= n)%nat -> last (most_recent n (l ++ [x])) = Some x.
Proof.
  intros Hn. destruct (most_recent_snoc n l x Hn) as (older & ->). apply last_snoc.
Qed.

Lemma most_recent_suffix {A : Type} (n : nat) (l : list A) : most_recent n l `suffix_of` l.
Proof. apply suffix_drop. Qed.

Lemma truncate_negative (mh : Z) (l : list Turn) :
  mh < 0 -> truncate mh l = drop (Z.to_nat (- mh)) l.
Proof.
  intros Hmh. unfold truncate.
  destruct (Z.gtb_spec (Z.of_nat (length l)) mh) as [_ | Hle]; [ | lia ].
  unfold py_slice_from.
  destruct (Z.ltb_spec (- mh) 0) as [Hlt | _]; [ lia | ].
  destruct (Z.le_gt_cases (- mh) (Z.of_nat (length l))) as [Hin | Hout].
  - f_equal. lia.
  - rewrite !drop_ge by lia. reflexivity.
Qed.

(** What [get_context] prints of a turn is decided by its role and content. *)
Lemma format_turn_said (msgs : list Turn) :
  format_turn <$> msgs = (fun p : string * string => p.1 +:+ ": " +:+ p.2) <$> (said <$> msgs).
Proof. rewrite <- list_fmap_compose. reflexivity. Qed.

Section MemoryProperties.

Context {World : Type}.
Variable datetime_now_isoformat : World -> string * World.

Abbreviation State := (@State World).
Abbreviation add := (add datetime_now_isoformat).

#[local] Existing Instance M_ret.
#[local] Existing Instance M_bind.

(** X1. With a bound of at least 1, whatever number of turns is stored (even
    more than the bound), one [add] leaves [min (n + 1) max_history] turns, the
    newest of which is the turn just added; the stored turns are a suffix of
    the old ones followed by the new one, and the bound itself is unchanged. *)
Theorem add_restores_bound (r c : string) (st : State) :
  1 <= max_history (st_memory st) ->
  exists t st',
    add r c st = (Return tt, st') /\
    max_history (st_memory st') = max_history (st_memory st) /\
    Z.of_nat (length (messages (st_memory st'))) =
      Z.min (Z.of_nat (length (messages (st_memory st))) + 1) (max_history (st_memory st)) /\
    last (messages (st_memory st')) = Some {| role := r; content := c; time := t |} /\
    messages (st_memory st')
      `suffix_of` (messages (st_memory st) ++ [ {| role := r; content := c; time := t |} ]).
Proof.
  intros Hmh.
  destruct (add_keeps_bound datetime_now_isoformat r c st Hmh)
    as (t & st' & Hadd & Hmh' & Hmem & _).
  exists t, st'. rewrite Hmem.
  split; [ exact Hadd | ]. split; [ exact Hmh' | ]. split; [ | split ].
  - rewrite most_recent_length, length_app. simpl. lia.
  - apply most_recent_last. lia.
  - apply most_recent_suffix.
Qed.

(** X2. With a negative [max_history] every [add] truncates, and the slice
    [messages[-max_history:]] then drops the [-max_history] OLDEST entries of
    the list that ends with the new turn.  In particular a memory holding fewer
    than [-max_history] turns is empty after [add]: the turn just added is
    lost. *)
Theorem add_negative_bound (r c : string) (st : State) :
  max_history (st_memory st) < 0 ->
  exists t st',
    add r c st = (Return tt, st') /\
    messages (st_memory st') =
      drop (Z.to_nat (- max_history (st_memory st)))
        (messages (st_memory st) ++ [ {| role := r; content := c; time := t |} ]) /\
    (Z.of_nat (length (messages (st_memory st))) < - max_history (st_memory st) ->
     messages (st_memory st') = []).
Proof.
  intros Hmh.
  destruct (add_run datetime_now_isoformat r c st) as (t & st' & Hadd & _ & _ & Hmem).
  exists t, st'. rewrite Hmem. simpl. rewrite truncate_negative by assumption.
  split; [ exact Hadd | ]. split; [ reflexivity | ].
  intros Hfew. apply drop_ge. rewrite length_app. simpl. lia.
Qed.

(** X3. With a bound of at least 1, two [add]s in a row store what appending
    both turns and truncating once stores: the most recent [max_history] turns
    of the old list followed by the two new turns, in the order added. *)
Theorem add_twice (r1 c1 r2 c2 : string) (st : State) :
  1 <= max_history (st_memory st) ->
  exists t1 t2 st',
    (add r1 c1;; add r2 c2) st = (Return tt, st') /\
    messages (st_memory st') =
      most_recent (Z.to_nat (max_history (st_memory st)))
        (messages (st_memory st)
         ++ [ {| role := r1; content := c1; time := t1 |};
              {| role := r2; content := c2; time := t2 |} ]).
Proof.
  intros Hmh.
  destruct (add_run datetime_now_isoformat r1 c1 st) as (t1 & st1 & Hadd1 & _ & _ & Hmem1).
  destruct (add_run datetime_now_isoformat r2 c2 st1) as (t2 & st' & Hadd2 & _ & _ & Hmem2).
  exists t1, t2, st'. split.
  - unfold mbind, M_bind. rewrite Hadd1. exact Hadd2.
  - rewrite Hmem2, Hmem1. simpl. apply truncate_twice. exact Hmh.
Qed.

(** X4. First in, first out.  On a memory that is exactly full
    ([len = max_history >= 1]) [add] evicts the oldest turn and nothing else;
    on a memory with room left it evicts nothing. *)
Theorem add_fifo (r c : string) (st : State) :
  1 <= max_history (st_memory st) ->
  Z.of_nat (length (messages (st_memory st))) <= max_history (st_memory st) ->
  exists t st',
    add r c st = (Return tt, st') /\
    (Z.of_nat (length (messages (st_memory st))) = max_history (st_memory st) ->
     messages (st_memory st') =
       drop 1 (messages (st_memory st)) ++ [ {| role := r; content := c; time := t |} ]) /\
    (Z.of_nat (length (messages (st_memory st))) < max_history (st_memory st) ->
     messages (st_memory st') =
       messages (st_memory st) ++ [ {| role := r; content := c; time := t |} ]).
Proof.
  intros Hmh Hlen.
  destruct (add_keeps_bound datetime_now_isoformat r c st Hmh)
    as (t & st' & Hadd & _ & Hmem & _).
  exists t, st'. rewrite Hmem. split; [ exact Hadd | ]. split.
  - intros Hfull. unfold most_recent. rewrite length_app. simpl.
    replace (length (messages (st_memory st)) + 1
             - Z.to_nat (max_history (st_memory st)))%nat with 1%nat by lia.
    rewrite drop_app_le by lia. reflexivity.
  - intros Hroom. apply most_recent_all. rewrite length_app. simpl. lia.
Qed.

(** X5. Only the five newest turns are rendered: any older turns in front of
    five or more turns do not change what [get_context] returns. *)
Theorem get_context_window (older recent : list Turn) (st : State) :
  (5 <= length recent)%nat ->
  fst (get_context (with_messages st (older ++ recent)))
  = fst (get_context (with_messages st recent)).
Proof.
  intros Hlen. rewrite !get_context_run. simpl. rewrite !render_most_recent.
  do 2 f_equal. unfold most_recent. rewrite length_app.
  rewrite drop_app_ge by lia. do 2 f_equal. lia.
Qed.

(** X6. The rendering does not show timestamps and does not depend on
    [max_history]: two memories whose turns have the same roles and contents,
    in the same order, give the same context. *)
Theorem get_context_ignores_time (st1 st2 : State) :
  said <$> messages (st_memory st1) = said <$> messages (st_memory st2) ->
  fst (get_context st1) = fst (get_context st2).
Proof.
  intros Hsaid. rewrite !get_context_run. simpl. rewrite !render_most_recent.
  rewrite !format_turn_said, !most_recent_fmap, Hsaid. reflexivity.
Qed.

End MemoryProperties.

Section PipelineProperties.

Context {World : Type}.
Variable generate_content : GenerateRequest -> World -> outcome string * World.
Variable datetime_now_isoformat : World -> string * World.
Variable json_loads : string -> outcome pyvalue.
Variable exn_str : exn -> string.
Variable py_repr : pyvalue -> string.

Abbreviation State := (@State World).
Abbreviation add := (add datetime_now_isoformat).
Abbreviation classify := (classify generate_content json_loads exn_str).
Abbreviation create_reply := (create_reply generate_content exn_str py_repr).
Abbreviation reply_request := (reply_request py_repr).
Abbreviation ask := (ask generate_content datetime_now_isoformat json_loads exn_str py_repr).
Abbreviation classification_fails := (classification_fails generate_content json_loads).
Abbreviation ask_each :=
  (ask_each generate_content datetime_now_isoformat json_loads exn_str py_repr).

#[local] Existing Instance M_ret.
#[local] Existing Instance M_bind.

(** ** Each operation with the state it leaves *)

Lemma add_eq (r c : string) (st : State) :
  add r c st =
    (Return tt,
     {| st_world := (datetime_now_isoformat (st_world st)).2;
        st_requests := st_requests st;
        st_stdout := st_stdout st;
        st_memory :=
          {| messages := truncate (max_history (st_memory st))
                           (messages (st_memory st)
                            ++ [ {| role := r; content := c;
                                    time := (datetime_now_isoformat (st_world st)).1 |} ]);
             max_history := max_history (st_memory st) |} |}).
Proof.
  unfold Cordinator.add, mbind, M_bind, get_memory, now, set_memory.
  destruct (datetime_now_isoformat (st_world st)) as [t w]. reflexivity.
Qed.

Lemma classify_on_success (message text : string) (result intent urgency : pyvalue)
  (w' : World) (st : State) :
  generate_content (classify_request message) (st_world st) = (Return text, w') ->
  json_loads text = Return result ->
  py_getitem result "intent" = Return intent ->
  py_getitem result "urgency" = Return urgency ->
  classify message st =
    (Return (intent, urgency),
     {| st_world := w'; st_requests := st_requests st ++ [ classify_request message ];
        st_stdout := st_stdout st; st_memory := st_memory st |}).
Proof.
  intros Hgen Hjson Hintent Hurgency.
  unfold Cordinator.classify, try_except, mbind, M_bind, mret, M_ret,
    client_models_generate_content, lift.
  rewrite Hgen. simpl. rewrite Hjson. simpl. rewrite Hintent. simpl. rewrite Hurgency.
  reflexivity.
Qed.

Lemma classify_on_failure (message : string) (st : State) :
  classification_fails message (st_world st) ->
  exists e,
    classify message st =
      (Return (PyStr "error", PyStr "low"),
       {| st_world := (generate_content (classify_request message) (st_world st)).2;
          st_requests := st_requests st ++ [ classify_request message ];
          st_stdout :=
            st_stdout st ++ [ "API Error during intent classification: " +:+ exn_str e ];
          st_memory := st_memory st |}).
Proof.
  intros Hfail.
  unfold Cordinator.classify, try_except, mbind, M_bind, mret, M_ret,
    client_models_generate_content, lift, print.
  destruct Hfail as [e w' Hgen | text w' e Hgen Hjson
                    | text w' result key e Hgen Hjson Hkey Hget].
  - rewrite Hgen. simpl. exists e. reflexivity.
  - rewrite Hgen. simpl. rewrite Hjson. simpl. exists e. reflexivity.
  - rewrite Hgen. simpl. rewrite Hjson. simpl.
    destruct Hkey as [-> | ->].
    + rewrite Hget. simpl. exists e. reflexivity.
    + destruct (py_getitem result "intent") as [intent | e']; simpl.
      * rewrite Hget. simpl. exists e. reflexivity.
      * exists e'. reflexivity.
Qed.

(** A classification either fails or yields both values. *)
Lemma classification_cases (message : string) (w : World) :
  classification_fails message w \/
  exists text result intent urgency w',
    generate_content (classify_request message) w = (Return text, w') /\
    json_loads text = Return result /\
    py_getitem result "intent" = Return intent /\
    py_getitem result "urgency" = Return urgency.
Proof.
  destruct (generate_content (classify_request message) w) as [[text | e] w'] eqn:Hgen;
    [ | left; eapply backend_raises; exact Hgen ].
  destruct (json_loads text) as [result | e] eqn:Hjson;
    [ | left; eapply malformed_json; eassumption ].
  destruct (py_getitem result "intent") as [intent | e] eqn:Hintent;
    [ | left; eapply (key_missing _ _ _ _ text w' result "intent"); eauto ].
  destruct (py_getitem result "urgency") as [urgency | e] eqn:Hurgency;
    [ | left; eapply (key_missing _ _ _ _ text w' result "urgency"); eauto ].
  right. exists text, result, intent, urgency, w'. auto.
Qed.

Lemma classification_success_excludes_failure (message text : string)
  (result intent urgency : pyvalue) (w w' : World) :
  generate_content (classify_request message) w = (Return text, w') ->
  json_loads text = Return result ->
  py_getitem result "intent" = Return intent ->
  py_getitem result "urgency" = Return urgency ->
  ~ classification_fails message w.
Proof.
  intros Hgen Hjson Hintent Hurgency Hfail.
  destruct Hfail as [e w'' Hgen' | text' w'' e Hgen' Hjson'
                    | text' w'' result' key e Hgen' Hjson' Hkey Hget];
    rewrite Hgen in Hgen'; try discriminate Hgen'.
  - injection Hgen' as <- <-. rewrite Hjson in Hjson'. discriminate Hjson'.
  - injection Hgen' as <- <-. rewrite Hjson in Hjson'. injection Hjson' as <-.
    destruct Hkey as [-> | ->]; congruence.
Qed.

Lemma create_reply_on_success (message : string) (intent urgency : pyvalue)
  (context text : string) (w' : World) (st : State) :
  generate_content (reply_request intent urgency context) (st_world st) = (Return text, w') ->
  create_reply message intent urgency context st =
    (Return text,
     {| st_world := w';
        st_requests := st_requests st ++ [ reply_request intent urgency context ];
        st_stdout := st_stdout st; st_memory := st_memory st |}).
Proof.
  intros Hgen.
  unfold Cordinator.create_reply, try_except, client_models_generate_content.
  rewrite Hgen. reflexivity.
Qed.

Lemma create_reply_on_failure (message : string) (intent urgency : pyvalue)
  (context : string) (e : exn) (w' : World) (st : State) :
  generate_content (reply_request intent urgency context) (st_world st) = (Raise e, w') ->
  create_reply message intent urgency context st =
    (Return fallback_reply,
     {| st_world := w';
        st_requests := st_requests st ++ [ reply_request intent urgency context ];
        st_stdout := st_stdout st ++ [ "API Error during reply generation: " +:+ exn_str e ];
        st_memory := st_memory st |}).
Proof.
  intros Hgen.
  unfold Cordinator.create_reply, try_except, client_models_generate_content,
    mbind, M_bind, mret, M_ret, print.
  rewrite Hgen. reflexivity.
Qed.

(** One request, at most one printed line, memory untouched. *)
Lemma classify_one_step (message : string) (st : State) :
  exists result st' lines,
    classify message st = (Return result, st') /\
    st_requests st' = st_requests st ++ [ classify_request message ] /\
    st_stdout st' = st_stdout st ++ lines /\ (length lines <= 1)%nat /\
    st_memory st' = st_memory st.
Proof.
  destruct (classification_cases message (st_world st))
    as [Hfail | (text & result & intent & urgency & w' & Hgen & Hjson & Hi & Hu)].
  - destruct (classify_on_failure message st Hfail) as (e & Hrun).
    do 2 eexists. eexists [ _ ]. split; [ exact Hrun | ]. simpl. repeat split. lia.
  - do 2 eexists. exists []. split; [ eapply classify_on_success; eassumption | ]. simpl.
    rewrite app_nil_r. repeat split. lia.
Qed.

Lemma create_reply_one_step (message : string) (intent urgency : pyvalue) (context : string)
  (st : State) :
  exists reply st' lines,
    create_reply message intent urgency context st = (Return reply, st') /\
    st_requests st' = st_requests st ++ [ reply_request intent urgency context ] /\
    st_stdout st' = st_stdout st ++ lines /\ (length lines <= 1)%nat /\
    st_memory st' = st_memory st.
Proof.
  destruct (generate_content (reply_request intent urgency context) (st_world st))
    as [[text | e] w'] eqn:Hgen.
  - do 2 eexists. exists []. split; [ eapply create_reply_on_success; exact Hgen | ]. simpl.
    rewrite app_nil_r. repeat split. lia.
  - do 2 eexists. eexists [ _ ]. split; [ eapply create_reply_on_failure; exact Hgen | ].
    simpl. repeat split. lia.
Qed.

(** ** The two agents *)

(** X7. When the backend answers with a text that [json.loads] parses and the
    parsed value has both keys, [classify] returns the two values exactly as
    parsed, whatever they are (no check against the listed categories, no
    check that they are strings); it prints nothing and makes one request. *)
Theorem classify_passes_values_through (message text : string)
  (result intent urgency : pyvalue) (w' : World) (st : State) :
  generate_content (classify_request message) (st_world st) = (Return text, w') ->
  json_loads text = Return result ->
  py_getitem result "intent" = Return intent ->
  py_getitem result "urgency" = Return urgency ->
  exists st',
    classify message st = (Return (intent, urgency), st') /\
    st_stdout st' = st_stdout st /\
    st_requests st' = st_requests st ++ [ classify_request message ] /\
    st_world st' = w' /\
    st_memory st' = st_memory st.
Proof.
  intros Hgen Hjson Hintent Hurgency.
  eexists. split; [ eapply classify_on_success; eassumption | ].
  repeat split.
Qed.

(** X8. [classify] makes exactly one backend request per call, failed or not
    (there is no retry), never changes the memory, and prints an error line
    exactly when the classification fails: one line on failure, none
    otherwise. *)
Theorem classify_one_request_prints_iff_fails (message : string) (st : State) :
  exists result st',
    classify message st = (Return result, st') /\
    st_requests st' = st_requests st ++ [ classify_request message ] /\
    st_memory st' = st_memory st /\
    ((classification_fails message (st_world st) /\
      result = (PyStr "error", PyStr "low") /\
      exists e, st_stdout st' =
                st_stdout st ++ [ "API Error during intent classification: " +:+ exn_str e ])
     \/ (~ classification_fails message (st_world st) /\ st_stdout st' = st_stdout st)).
Proof.
  destruct (classification_cases message (st_world st))
    as [Hfail | (text & result & intent & urgency & w' & Hgen & Hjson & Hi & Hu)].
  - destruct (classify_on_failure message st Hfail) as (e & Hrun).
    do 2 eexists. split; [ exact Hrun | ]. simpl.
    split; [ reflexivity | ]. split; [ reflexivity | ].
    left. split; [ exact Hfail | ]. split; [ reflexivity | ]. exists e. reflexivity.
  - do 2 eexists. split; [ eapply classify_on_success; eassumption | ]. simpl.
    split; [ reflexivity | ]. split; [ reflexivity | ].
    right. split; [ | reflexivity ].
    eapply classification_success_excludes_failure; eassumption.
Qed.

(** X9. [create_reply] never reads its [message] argument: the call, its
    result and the state it leaves are the same for any two messages.  It
    makes exactly one request, the one without a response schema built from
    the classification and the context, leaves the memory alone and prints at
    most one line. *)
Theorem create_reply_ignores_message (m1 m2 : string) (intent urgency : pyvalue)
  (context : string) (st : State) :
  create_reply m1 intent urgency context st = create_reply m2 intent urgency context st /\
  exists reply st',
    create_reply m1 intent urgency context st = (Return reply, st') /\
    st_requests st' = st_requests st ++ [ reply_request intent urgency context ] /\
    config (reply_request intent urgency context) = None /\
    st_memory st' = st_memory st /\
    (length (st_stdout st') <= length (st_stdout st) + 1)%nat.
Proof.
  split; [ reflexivity | ].
  destruct (generate_content (reply_request intent urgency context) (st_world st))
    as [[text | e] w'] eqn:Hgen.
  - do 2 eexists. split; [ eapply create_reply_on_success; exact Hgen | ]. simpl.
    repeat split. lia.
  - do 2 eexists. split; [ eapply create_reply_on_failure; exact Hgen | ]. simpl.
    repeat split. rewrite length_app. simpl. lia.
Qed.

(** ** The coordinator *)

(** X10. The success path of [ask], step by step.  The user turn is stamped
    with a clock reading taken BEFORE the classification call; if that call
    yields [intent] and [urgency] and the reply call, made with the context of
    the memory that already holds the user turn, yields [reply], then [ask]
    returns exactly these three values, prints nothing, has made these two
    requests in this order, and stamps the agent turn with a clock reading
    taken AFTER the reply call. *)
Theorem ask_success (message text reply : string) (result intent urgency : pyvalue)
  (w2 w3 : World) (st : State) :
  let t1 := (datetime_now_isoformat (st_world st)).1 in
  let w1 := (datetime_now_isoformat (st_world st)).2 in
  let stored :=
    truncate (max_history (st_memory st))
      (messages (st_memory st) ++ [ {| role := "user"; content := message; time := t1 |} ]) in
  generate_content (classify_request message) w1 = (Return text, w2) ->
  json_loads text = Return result ->
  py_getitem result "intent" = Return intent ->
  py_getitem result "urgency" = Return urgency ->
  generate_content (reply_request intent urgency (render stored)) w2 = (Return reply, w3) ->
  ask message st =
    (Return {[ "intent" := intent; "urgency" := urgency; "reply" := PyStr reply ]},
     {| st_world := (datetime_now_isoformat w3).2;
        st_requests :=
          st_requests st ++ [ classify_request message;
                              reply_request intent urgency (render stored) ];
        st_stdout := st_stdout st;
        st_memory :=
          {| messages :=
               truncate (max_history (st_memory st))
                 (stored ++ [ {| role := "agent"; content := reply;
                                 time := (datetime_now_isoformat w3).1 |} ]);
             max_history := max_history (st_memory st) |} |}).
Proof.
  intros t1 w1 stored Hgen1 Hjson Hintent Hurgency Hgen2.
  pose proof (add_eq "user" message st) as Hadd1.
  fold t1 w1 stored in Hadd1.
  match type of Hadd1 with _ = (_, ?s) => set (st1 := s) in * end.
  pose proof (classify_on_success message text result intent urgency w2 st1
                Hgen1 Hjson Hintent Hurgency) as Hcls.
  match type of Hcls with _ = (_, ?s) => set (st2 := s) in * end.
  pose proof (create_reply_on_success message intent urgency (render stored) reply w3 st2
                Hgen2) as Hrep.
  match type of Hrep with _ = (_, ?s) => set (st3 := s) in * end.
  pose proof (add_eq "agent" reply st3) as Hadd2.
  unfold Cordinator.ask, mbind, M_bind, mret, M_ret.
  rewrite Hadd1, Hcls, get_context_run.
  change (render (messages (st_memory st2))) with (render stored).
  rewrite Hrep, Hadd2. simpl. rewrite <- app_assoc. reflexivity.
Qed.

(** X11. With a backend that raises on every call, [ask] still returns, for
    every message and state, the dict
    [{"intent": "error", "urgency": "low", "reply": fallback}], after two
    requests and two printed error lines, first the classification one; and
    the fallback text is what is appended to the memory as the agent turn. *)
Theorem ask_backend_down (message : string) (st : State) :
  (forall request w, exists e w', generate_content request w = (Raise e, w')) ->
  exists e1 e2 t st',
    ask message st =
      (Return {[ "intent" := PyStr "error"; "urgency" := PyStr "low";
                 "reply" := PyStr fallback_reply ]}, st') /\
    length (st_requests st') = (length (st_requests st) + 2)%nat /\
    st_stdout st' =
      st_stdout st ++ [ "API Error during intent classification: " +:+ exn_str e1;
                        "API Error during reply generation: " +:+ exn_str e2 ] /\
    (1 <= max_history (st_memory st) ->
     last (messages (st_memory st'))
     = Some {| role := "agent"; content := fallback_reply; time := t |}).
Proof.
  intros Hdown.
  pose proof (add_eq "user" message st) as Hadd1.
  match type of Hadd1 with _ = (_, ?s) => set (st1 := s) in * end.
  destruct (Hdown (classify_request message) (st_world st1)) as (e1 & w2 & Hgen1).
  destruct (classify_on_failure message st1 (backend_raises _ _ _ _ e1 w2 Hgen1))
    as (e1' & Hcls).
  match type of Hcls with _ = (_, ?s) => set (st2 := s) in * end.
  destruct (Hdown (reply_request (PyStr "error") (PyStr "low")
                     (render (messages (st_memory st2)))) (st_world st2))
    as (e2 & w3 & Hgen2).
  pose proof (create_reply_on_failure message (PyStr "error") (PyStr "low")
                (render (messages (st_memory st2))) e2 w3 st2 Hgen2) as Hrep.
  match type of Hrep with _ = (_, ?s) => set (st3 := s) in * end.
  pose proof (add_eq "agent" fallback_reply st3) as Hadd2.
  match type of Hadd2 with _ = (_, ?s) => set (st4 := s) in * end.
  exists e1', e2, (datetime_now_isoformat (st_world st3)).1, st4.
  split; [ | split; [ | split ] ].
  - unfold Cordinator.ask, mbind, M_bind, mret, M_ret.
    rewrite Hadd1, Hcls, get_context_run, Hrep, Hadd2. reflexivity.
  - simpl. rewrite !length_app. simpl. lia.
  - simpl. rewrite <- app_assoc. reflexivity.
  - intros Hmh. simpl. rewrite truncate_most_recent by exact Hmh.
    apply most_recent_last. lia.
Qed.

(** What every call of [ask] does to the request log, the output and the
    bound, whatever the backend does and whatever the bound is. *)
Lemma ask_effects (message : string) (st : State) :
  exists out st' requests lines,
    ask message st = (Return out, st') /\
    dom out = ({[ "intent"; "urgency"; "reply" ]} : gset string) /\
    st_requests st' = st_requests st ++ requests /\ exchange_requests message requests /\
    st_stdout st' = st_stdout st ++ lines /\ (length lines <= 2)%nat /\
    max_history (st_memory st') = max_history (st_memory st).
Proof.
  pose proof (add_eq "user" message st) as Hadd1.
  match type of Hadd1 with _ = (_, ?s) => set (st1 := s) in * end.
  destruct (classify_one_step message st1) as (iu & st2 & l1 & Hcls & Hreq2 & Hout2 & Hl1 & Hmem2).
  destruct iu as [intent urgency].
  destruct (create_reply_one_step message intent urgency (render (messages (st_memory st2))) st2)
    as (reply & st3 & l2 & Hrep & Hreq3 & Hout3 & Hl2 & Hmem3).
  pose proof (add_eq "agent" reply st3) as Hadd2.
  match type of Hadd2 with _ = (_, ?s) => set (st4 := s) in * end.
  eexists. exists st4. eexists. exists (l1 ++ l2).
  split; [ | split; [ | split; [ | split; [ | split; [ | split ] ] ] ] ].
  - unfold Cordinator.ask, mbind, M_bind, mret, M_ret.
    rewrite Hadd1, Hcls, get_context_run, Hrep, Hadd2. reflexivity.
  - rewrite !dom_insert_L, dom_singleton_L. set_solver.
  - simpl. rewrite Hreq3, Hreq2, <- app_assoc. reflexivity.
  - eexists. split; reflexivity.
  - simpl. rewrite Hout3, Hout2. simpl. rewrite app_assoc. reflexivity.
  - rewrite length_app. lia.
  - simpl. rewrite Hmem3, Hmem2. reflexivity.
Qed.

(** X12. A run of calls never raises, whatever the backend does and whatever
    [max_history] is: it returns one output per message, each with exactly the
    keys intent, urgency and reply, makes exactly two requests per message,
    prints at most two lines per message and leaves [max_history] as it was. *)
Theorem ask_each_effects (msgs : list string) (st : State) :
  exists outs st',
    ask_each msgs st = (Return outs, st') /\
    length outs = length msgs /\
    Forall (fun out => dom out = ({[ "intent"; "urgency"; "reply" ]} : gset string)) outs /\
    length (st_requests st') = (length (st_requests st) + 2 * length msgs)%nat /\
    (length (st_stdout st') <= length (st_stdout st) + 2 * length msgs)%nat /\
    max_history (st_memory st') = max_history (st_memory st).
Proof.
  revert st. induction msgs as [ | msg msgs IH]; intros st.
  - exists [], st. simpl. repeat split; [ constructor | lia | lia ].
  - destruct (ask_effects msg st)
      as (out & st1 & requests & lines & Hask & Hdom & Hreq & (rr & -> & _) & Hstd & Hlines & Hmh).
    destruct (IH st1) as (outs & st' & Hrun & Hlen & Hdoms & Hreqs & Hstds & Hmhs).
    exists (out :: outs), st'.
    split; [ | split; [ | split; [ | split; [ | split ] ] ] ].
    + simpl. unfold mbind, M_bind, mret, M_ret.
      rewrite Hask. fold ask_each. rewrite Hrun. reflexivity.
    + simpl. lia.
    + constructor; assumption.
    + rewrite Hreqs, Hreq, length_app. simpl. lia.
    + rewrite Hstd, length_app in Hstds. simpl. lia.
    + congruence.
Qed.

(** Dropping whole exchanges from the front of a transcript. *)
Lemma transcript_drop (j : nat) (msgs : list string) (outs : list (gmap string pyvalue)) :
  drop (2 * j) (transcript msgs outs) = transcript (drop j msgs) (drop j outs).
Proof.
  revert msgs outs. induction j as [ | j IH]; intros msgs outs; [ reflexivity | ].
  replace (2 * S j)%nat with (S (S (2 * j))) by lia.
  destruct msgs as [ | msg msgs]; [ reflexivity | ].
  destruct outs as [ | out outs].
  - simpl. unfold transcript. now destruct (drop j msgs).
  - unfold transcript in *. simpl. apply IH.
Qed.

(** X13. With an even bound [max_history = 2 k] (the default 20 has [k = 10])
    a run of calls started on an empty memory leaves exactly the last [k]
    exchanges, whole: for each of the last [k] messages (all of them when
    there are fewer) its user turn followed by the reply returned for it. *)
Theorem ask_each_keeps_last_exchanges (k : nat) (msgs : list string) (st : State) :
  (1 <= k)%nat ->
  max_history (st_memory st) = 2 * Z.of_nat k ->
  messages (st_memory st) = [] ->
  exists outs st',
    ask_each msgs st = (Return outs, st') /\
    said <$> messages (st_memory st')
    = transcript (most_recent k msgs) (most_recent k outs).
Proof.
  intros Hk Hmh Hempty.
  destruct (ask_each_run generate_content datetime_now_isoformat json_loads exn_str py_repr
              msgs st) as (outs & st' & Hrun & Hlen & _ & Hmem);
    [ lia | rewrite Hempty; simpl; lia | ].
  exists outs, st'. split; [ exact Hrun | ].
  rewrite Hmem, Hempty, Hmh. simpl. unfold most_recent.
  rewrite transcript_length, Hlen by exact Hlen.
  replace (2 * length msgs - Z.to_nat (2 * Z.of_nat k))%nat
    with (2 * (length msgs - k))%nat by lia.
  apply transcript_drop.
Qed.

(** X14. With [max_history = 1] the user turn does not survive its own call:
    after [ask] the memory holds one turn, the agent turn with the reply that
    was returned. *)
Theorem ask_bound_one (message : string) (st : State) :
  max_history (st_memory st) = 1 ->
  exists out st' t,
    ask message st = (Return out, st') /\
    messages (st_memory st') = [ {| role := "agent"; content := reply_text out; time := t |} ].
Proof.
  intros Hmh.
  destruct (ask_two_turns generate_content datetime_now_isoformat json_loads exn_str py_repr
              message st) as (out & st' & t1 & t2 & Hask & _ & Hmem); [ lia | ].
  exists out, st', t2. split; [ exact Hask | ].
  rewrite Hmem, Hmh. change (Z.to_nat 1) with 1%nat.
  unfold most_recent.
  change [ {| role := "user"; content := message; time := t1 |};
           {| role := "agent"; content := reply_text out; time := t2 |} ]
    with ([ {| role := "user"; content := message; time := t1 |} ]
          ++ [ {| role := "agent"; content := reply_text out; time := t2 |} ]).
  rewrite app_assoc. apply drop_app_length'.
  rewrite !length_app. simpl. lia.
Qed.

(** One call at bound 0 appends both turns and drops nothing. *)
Lemma ask_at_zero (message : string) (st : State) :
  max_history (st_memory st) = 0 ->
  exists out st',
    ask message st = (Return out, st') /\
    max_history (st_memory st') = 0 /\
    said <$> messages (st_memory st')
    = (said <$> messages (st_memory st)) ++ [ ("user", message); ("agent", reply_text out) ].
Proof.
  intros Hmh.
  destruct (ask_run generate_content datetime_now_isoformat json_loads exn_str py_repr
              message st)
    as (t1 & t2 & intent & urgency & reply & st1 & st2 & st'
        & _ & _ & Hmem1 & _ & Hask & _ & Hmem').
  eexists. exists st'. split; [ exact Hask | ].
  rewrite Hmem', Hmem1, Hmh. simpl. rewrite !truncate_0.
  split; [ reflexivity | ].
  rewrite <- app_assoc, fmap_app. reflexivity.
Qed.

(** X15. With [max_history = 0] nothing is ever evicted: a run of [N] calls
    leaves all old turns followed by the whole transcript of the run, so the
    memory grows by [2 N] turns. *)
Theorem ask_each_unbounded_at_zero (msgs : list string) (st : State) :
  max_history (st_memory st) = 0 ->
  exists outs st',
    ask_each msgs st = (Return outs, st') /\
    said <$> messages (st_memory st')
    = (said <$> messages (st_memory st)) ++ transcript msgs outs /\
    length (messages (st_memory st'))
    = (length (messages (st_memory st)) + 2 * length msgs)%nat.
Proof.
  revert st. induction msgs as [ | msg msgs IH]; intros st Hmh.
  - exists [], st. unfold transcript. simpl. rewrite app_nil_r. repeat split. lia.
  - destruct (ask_at_zero msg st Hmh) as (out & st1 & Hask & Hmh1 & Hmem1).
    destruct (IH st1 Hmh1) as (outs & st' & Hrun & Hmem' & Hlen').
    exists (out :: outs), st'. split; [ | split ].
    + simpl. unfold mbind, M_bind, mret, M_ret.
      rewrite Hask. fold ask_each. rewrite Hrun. reflexivity.
    + rewrite Hmem', Hmem1, <- app_assoc. reflexivity.
    + rewrite Hlen'. apply (f_equal length) in Hmem1.
      rewrite length_app, !length_fmap in Hmem1. simpl in *. lia.
Qed.

End PipelineProperties.

(** ** Setup and driver *)


Section DriverProperties.

Context {World : Type}.
Variable generate_with : Client -> GenerateRequest -> World -> outcome string * World.
Variable datetime_now_isoformat : World -> string * World.
Variable json_loads : string -> outcome pyvalue.
Variable exn_str : exn -> string.
Variable py_repr : pyvalue -> string.
Variable json_dumps_indent2 : gmap string pyvalue -> string.

Abbreviation State := (@State World).
Abbreviation for_each_message :=
  (Sample_run.for_each_message generate_with datetime_now_isoformat json_loads exn_str
     py_repr json_dumps_indent2).
Abbreviation main :=
  (Sample_run.main generate_with datetime_now_isoformat json_loads exn_str py_repr
     json_dumps_indent2).

#[local] Existing Instance M_ret.
#[local] Existing Instance M_bind.

(** The loop never raises; per message it makes the two requests of one call
    of [ask] and prints one block of lines. *)
Lemma for_each_message_run (llm_client : Client) (msgs : list string) (st : State) :
  exists st' request_blocks printed_blocks,
    for_each_message llm_client msgs st = (Return tt, st') /\
    st_requests st' = st_requests st ++ concat request_blocks /\
    Forall2 exchange_requests msgs request_blocks /\
    st_stdout st' = st_stdout st ++ concat printed_blocks /\
    Forall2 (printed_block json_dumps_indent2) msgs printed_blocks.
Proof.
  revert st. induction msgs as [ | msg msgs IH]; intros st.
  - exists st, [], []. simpl. rewrite !app_nil_r. repeat split; constructor.
  - set (st0 := {| st_world := st_world st; st_requests := st_requests st;
                   st_stdout := st_stdout st ++ [ "USER: " +:+ msg ];
                   st_memory := st_memory st |}).
    destruct (ask_effects (generate_with llm_client) datetime_now_isoformat json_loads
                exn_str py_repr msg st0)
      as (out & st1 & requests & lines & Hask & Hdom & Hreq & Hex & Hstd & Hlines & _).
    set (st2 := {| st_world := st_world st1; st_requests := st_requests st1;
                   st_stdout := (st_stdout st1 ++ [ json_dumps_indent2 out ])
                                ++ [ str_times "-" 50 ];
                   st_memory := st_memory st1 |}).
    destruct (IH st2) as (st' & rbs & pbs & Hrun & Hreqs & Hexs & Hstds & Hblocks).
    exists st', (requests :: rbs),
      ((("USER: " +:+ msg) :: lines ++ [ json_dumps_indent2 out; str_times "-" 50 ]) :: pbs).
    split; [ | split; [ | split; [ | split ] ] ].
    + simpl. unfold mbind, M_bind, mret, M_ret, print.
      fold st0. rewrite Hask. fold st2. exact Hrun.
    + rewrite Hreqs. simpl. rewrite Hreq. simpl. rewrite <- app_assoc. reflexivity.
    + constructor; assumption.
    + rewrite Hstds. simpl. rewrite Hstd. simpl.
      rewrite <- !app_assoc. reflexivity.
    + constructor; [ | assumption ].
      exists lines, out. repeat split; assumption.
Qed.



End DriverProperties.

(** ** The further properties on concrete inputs *)

Lemma add_restores_bound_witness :
  let st := Demo.state_of {| messages := DemoRun.five_turns; max_history := 3 |} in
  1 <= max_history (st_memory st) /\
  exists t st',
    add Demo.clock "agent" "h" st = (Return tt, st') /\
    Z.of_nat (length (messages (st_memory st'))) = 3 /\
    last (messages (st_memory st')) = Some {| role := "agent"; content := "h"; time := t |}.
Proof.
  intros st. split; [ simpl; lia | ].
  destruct (add_restores_bound Demo.clock "agent" "h" st)
    as (t & st' & Hadd & _ & Hlen & Hlast & _); [ simpl; lia | ].
  exists t, st'. split; [ exact Hadd | ]. split; [ exact Hlen | exact Hlast ].
Defined.

Lemma add_negative_bound_witness :
  let st := Demo.state_of {| messages := []; max_history := -1 |} in
  max_history (st_memory st) < 0 /\
  Z.of_nat (length (messages (st_memory st))) < - max_history (st_memory st) /\
  exists st', add Demo.clock "user" "hi" st = (Return tt, st') /\ messages (st_memory st') = [].
Proof.
  intros st. split; [ simpl; lia | ]. split; [ simpl; lia | ].
  destruct (add_negative_bound Demo.clock "user" "hi" st)
    as (t & st' & Hadd & _ & Hempty); [ simpl; lia | ].
  exists st'. split; [ exact Hadd | ]. apply Hempty. simpl. lia.
Defined.

Lemma add_twice_witness :
  let st := Demo.state_of {| messages := DemoRun.three_turns; max_history := 3 |} in
  1 <= max_history (st_memory st) /\
  exists t1 t2 st',
    (@mbind _ M_bind _ _ (fun _ => add Demo.clock "user" "e") (add Demo.clock "agent" "d")) st
    = (Return tt, st') /\
    messages (st_memory st') =
      most_recent 3 (DemoRun.three_turns
                     ++ [ {| role := "agent"; content := "d"; time := t1 |};
                          {| role := "user"; content := "e"; time := t2 |} ]).
Proof.
  intros st. split; [ simpl; lia | ].
  apply (add_twice Demo.clock "agent" "d" "user" "e" st). simpl. lia.
Defined.

Lemma add_fifo_witness :
  let st := Demo.state_of {| messages := DemoRun.three_turns; max_history := 3 |} in
  1 <= max_history (st_memory st) /\
  Z.of_nat (length (messages (st_memory st))) = max_history (st_memory st) /\
  exists t st',
    add Demo.clock "agent" "d" st = (Return tt, st') /\
    messages (st_memory st') =
      [ Demo.turn "agent" "b"; Demo.turn "user" "c";
        {| role := "agent"; content := "d"; time := t |} ].
Proof.
  intros st. split; [ simpl; lia | ]. split; [ reflexivity | ].
  destruct (add_fifo Demo.clock "agent" "d" st) as (t & st' & Hadd & Hfull & _);
    [ simpl; lia | simpl; lia | ].
  exists t, st'. split; [ exact Hadd | ]. apply Hfull. reflexivity.
Defined.

Lemma get_context_window_witness :
  (5 <= length DemoRun.five_turns)%nat /\
  fst (get_context (with_messages (LLMCoordinator_new 0%nat)
                      (DemoRun.three_turns ++ DemoRun.five_turns)))
  = fst (get_context (with_messages (LLMCoordinator_new 0%nat) DemoRun.five_turns)).
Proof.
  split; [ simpl; lia | ].
  apply (get_context_window DemoRun.three_turns DemoRun.five_turns (LLMCoordinator_new 0%nat)).
  simpl. lia.
Defined.

Lemma get_context_ignores_time_witness :
  let st1 := Demo.state_of {| messages := [ Demo.turn "user" "hi" ]; max_history := 20 |} in
  let st2 := Demo.state_of {| messages := [ {| role := "user"; content := "hi";
                                               time := "1999-12-31T23:59:59" |} ];
                              max_history := 3 |} in
  said <$> messages (st_memory st1) = said <$> messages (st_memory st2) /\
  fst (get_context st1) = fst (get_context st2).
Proof.
  intros st1 st2. split; [ reflexivity | ].
  apply (get_context_ignores_time st1 st2). reflexivity.
Defined.

Lemma classify_passes_values_through_witness :
  Demo.backend (classify_request "hi") 0%nat = (Return Demo.answer_json, 1%nat) /\
  Demo.loads Demo.answer_json
  = Return (PyDict [ ("intent", PyStr "general_help"); ("urgency", PyStr "low") ]) /\
  exists st',
    classify Demo.backend Demo.loads Demo.str_of_exn "hi" (LLMCoordinator_new 0%nat)
    = (Return (PyStr "general_help", PyStr "low"), st') /\
    st_stdout st' = [].
Proof.
  split; [ reflexivity | ]. split; [ reflexivity | ].
  destruct (classify_passes_values_through Demo.backend Demo.loads Demo.str_of_exn
              "hi" Demo.answer_json
              (PyDict [ ("intent", PyStr "general_help"); ("urgency", PyStr "low") ])
              (PyStr "general_help") (PyStr "low") 1%nat (LLMCoordinator_new 0%nat))
    as (st' & Hrun & Hout & _); try reflexivity.
  exists st'. split; [ exact Hrun | exact Hout ].
Defined.

Lemma ask_success_witness :
  exists st',
    ask Demo.backend Demo.clock Demo.loads Demo.str_of_exn Demo.repr
      "Hello, I need help." (LLMCoordinator_new 0%nat)
    = (Return {[ "intent" := PyStr "general_help"; "urgency" := PyStr "low";
                 "reply" := PyStr "Happy to help. Could you share your order ID?" ]}, st') /\
    st_stdout st' = [] /\
    said <$> messages (st_memory st')
    = [ ("user", "Hello, I need help.");
        ("agent", "Happy to help. Could you share your order ID?") ].
Proof.
  eexists. split.
  - apply (ask_success Demo.backend Demo.clock Demo.loads Demo.str_of_exn Demo.repr
             "Hello, I need help." Demo.answer_json
             "Happy to help. Could you share your order ID?"
             (PyDict [ ("intent", PyStr "general_help"); ("urgency", PyStr "low") ])
             (PyStr "general_help") (PyStr "low") 2%nat 3%nat (LLMCoordinator_new 0%nat));
      reflexivity.
  - split; reflexivity.
Defined.

Lemma ask_backend_down_witness :
  (forall request w, exists e w', Demo.backend_down request w = (Raise e, w')) /\
  exists st',
    ask Demo.backend_down Demo.clock Demo.loads Demo.str_of_exn Demo.repr
      "test" (LLMCoordinator_new 0%nat)
    = (Return {[ "intent" := PyStr "error"; "urgency" := PyStr "low";
                 "reply" := PyStr fallback_reply ]}, st').
Proof.
  assert (Hdown : forall request (w : nat), exists e w',
             Demo.backend_down request w = (Raise e, w'))
    by (intros request w; do 2 eexists; reflexivity).
  split; [ exact Hdown | ].
  destruct (ask_backend_down Demo.backend_down Demo.clock Demo.loads Demo.str_of_exn Demo.repr
              "test" (LLMCoordinator_new 0%nat) Hdown) as (e1 & e2 & t & st' & Hask & _).
  exists st'. exact Hask.
Defined.

Lemma ask_each_keeps_last_exchanges_witness :
  (1 <= 10)%nat /\
  max_history (st_memory (LLMCoordinator_new 0%nat)) = 2 * Z.of_nat 10 /\
  messages (st_memory (LLMCoordinator_new 0%nat)) = [] /\
  exists outs st',
    Demo.run_ask_each Demo.eleven (LLMCoordinator_new 0%nat) = (Return outs, st') /\
    said <$> messages (st_memory st')
    = transcript (most_recent 10 Demo.eleven) (most_recent 10 outs).
Proof.
  split; [ lia | ]. split; [ reflexivity | ]. split; [ reflexivity | ].
  apply (ask_each_keeps_last_exchanges Demo.backend Demo.clock Demo.loads Demo.str_of_exn
           Demo.repr 10 Demo.eleven (LLMCoordinator_new 0%nat)); [ lia | reflexivity .. ].
Defined.

Lemma ask_bound_one_witness :
  let st := Demo.state_of {| messages := DemoRun.three_turns; max_history := 1 |} in
  max_history (st_memory st) = 1 /\
  exists out st' t,
    Demo.run_ask "hi" st = (Return out, st') /\
    messages (st_memory st') = [ {| role := "agent"; content := reply_text out; time := t |} ].
Proof.
  intros st. split; [ reflexivity | ].
  apply (ask_bound_one Demo.backend Demo.clock Demo.loads Demo.str_of_exn Demo.repr "hi" st).
  reflexivity.
Defined.

Lemma ask_each_unbounded_at_zero_witness :
  let st := Demo.state_of {| messages := []; max_history := 0 |} in
  max_history (st_memory st) = 0 /\
  exists outs st',
    Demo.run_ask_each Demo.eleven st = (Return outs, st') /\
    length (messages (st_memory st')) = 22%nat.
Proof.
  intros st. split; [ reflexivity | ].
  destruct (ask_each_unbounded_at_zero Demo.backend Demo.clock Demo.loads Demo.str_of_exn
              Demo.repr Demo.eleven st) as (outs & st' & Hrun & _ & Hlen); [ reflexivity | ].
  exists outs, st'. split; [ exact Hrun | exact Hlen ].
Defined.



